(** * ALICE master database: normalisation and aggregation

    A shallow embedding of [build_master_database.js]: the per-row
    normalisers of the [County] and [Subcounty] sheets, the rate
    calculation, the per-file loop of [buildMasterDatabase] with the
    counters of [geoStats], the fold and the ranking of
    [createAggregatedStats], and [main]; of the data explorer in the same
    file, the risk level of [analyzeLocation], the critical alert of
    [generateAIInsights], [convertToCSV] and [exportData].

    Conventions of the embedding.
    - A spreadsheet cell is a JavaScript value.  Numeric cells and
      household counts are integers, held in [Z]: JavaScript numbers are
      binary64, and integer arithmetic on them is exact below 2^53.
    - The two operations that leave the integers, [/] and [*] in the rate
      formula, are modelled as IEEE 754 binary64 operations: the exact
      rational result rounded to the nearest double, ties to even.
    - Strings are sequences of code units below 256 (Latin-1).
    - A thrown exception is the [Throw] result of the error monad. *)

From Stdlib Require Import ZArith QArith Qpower Qround Qabs Lqa Lia String Ascii List.
From Stdlib Require Import DecimalString Sorting.Sorted Permutation.
From Stdlib Require Import Floats Uint63.
From Stdlib Require DecimalPos.
From stdpp Require Import gmap strings list.

Open Scope Z_scope.

(* ===================================================================== *)
(** ** JavaScript values *)
(* ===================================================================== *)

Module JS.

(** The values a cell of a parsed sheet can hold, and [undefined] for a
    column the row does not have. *)
Inductive JSValue :=
| JUndefined
| JNull
| JBool (b : bool)
| JNum (z : Z)
| JStr (s : string).

(** [ToBoolean]: the test of [if (v)], [!v] and [v || w]. *)
Definition truthy (v : JSValue) : bool :=
  match v with
  | JUndefined | JNull => false
  | JBool b => b
  | JNum z => negb (z =? 0)
  | JStr s => negb (String.eqb s "")
  end.

(** [v || w]. *)
Definition js_or (v w : JSValue) : JSValue := if truthy v then v else w.

(** Decimal digits of an integer, as [Number.prototype.toString] prints
    an integer below 10^21. *)
Definition string_of_Z (z : Z) : string := NilZero.string_of_int (Z.to_int z).

(** [ToString], also what [v.toString()] returns where it is defined. *)
Definition to_string (v : JSValue) : string :=
  match v with
  | JUndefined => "undefined"
  | JNull => "null"
  | JBool true => "true"
  | JBool false => "false"
  | JNum z => string_of_Z z
  | JStr s => s
  end.

(** *** String methods *)

Definition code (c : ascii) : N := N_of_ascii c.

(** One code unit of [String.prototype.toLowerCase]: A-Z, and the Latin-1
    capitals U+00C0..U+00DE except the multiplication sign U+00D7. *)
Definition lower_char (c : ascii) : ascii :=
  let n := code c in
  if ((65 <=? n) && (n <=? 90))%N || ((192 <=? n) && (n <=? 222) && negb (n =? 215))%N
  then ascii_of_N (n + 32) else c.

Fixpoint toLowerCase (s : string) : string :=
  match s with
  | EmptyString => EmptyString
  | String c r => String (lower_char c) (toLowerCase r)
  end.

(** [hay.includes(needle)]: [needle] occurs in [hay] at some position. *)
Fixpoint includes (hay needle : string) : bool :=
  if String.prefix needle hay then true
  else match hay with
       | EmptyString => false
       | String _ r => includes r needle
       end.

(** The first [k] code units of [fill] repeated: the padding that
    [padStart] builds ([cur] is what is left of the current copy). *)
Fixpoint fill_chars (k : nat) (cur fill : string) : string :=
  match k with
  | O => EmptyString
  | S k' =>
      match cur with
      | String c r => String c (fill_chars k' r fill)
      | EmptyString =>
          match fill with
          | String c r => String c (fill_chars k' r fill)
          | EmptyString => EmptyString
          end
      end
  end.

(** [s.padStart(n, fill)]: [s] itself when it already has [n] code units
    (it is never shortened) or when [fill] is empty. *)
Definition padStart (n : nat) (fill s : string) : string :=
  if (n <=? String.length s)%nat then s
  else (fill_chars (n - String.length s) fill fill ++ s)%string.

(** *** parseInt *)

(** [StrWhiteSpaceChar] below 256: TAB, LF, VT, FF, CR, SP, NBSP. *)
Definition is_space (c : ascii) : bool :=
  let n := code c in
  (((9 <=? n) && (n <=? 13)) || (n =? 32) || (n =? 160))%N.

Fixpoint skip_space (s : string) : string :=
  match s with
  | String c r => if is_space c then skip_space r else s
  | EmptyString => EmptyString
  end.

(** The value of [c] as a digit of radix [radix], if it is one. *)
Definition digit_val (radix : Z) (c : ascii) : option Z :=
  let n := Z.of_N (code c) in
  let d := if (48 <=? n) && (n <=? 57) then Some (n - 48)
           else if (97 <=? n) && (n <=? 122) then Some (n - 87)
           else if (65 <=? n) && (n <=? 90) then Some (n - 55)
           else None in
  match d with
  | Some v => if v <? radix then Some v else None
  | None => None
  end.

(** The longest prefix of radix-[radix] digits, read left to right;
    [None] when the prefix is empty. *)
Fixpoint digits_prefix (radix : Z) (acc : option Z) (s : string) : option Z :=
  match s with
  | String c r =>
      match digit_val radix c with
      | Some d => digits_prefix radix (Some (radix * default 0 acc + d)) r
      | None => acc
      end
  | EmptyString => acc
  end.

(** [parseInt(s)] with no radix argument: leading white space, a sign, a
    [0x]/[0X] prefix selecting radix 16, then digits.  [None] is NaN. *)
Definition parseInt_string (s : string) : option Z :=
  let s1 := skip_space s in
  let '(neg, s2) :=
    match s1 with
    | String "-" r => (true, r)
    | String "+" r => (false, r)
    | _ => (false, s1)
    end in
  let '(radix, s3) :=
    match s2 with
    | String "0" (String "x" r) | String "0" (String "X" r) => (16, r)
    | _ => (10, s2)
    end in
  match digits_prefix radix None s3 with
  | Some v => Some (if neg : bool then - v else v)
  | None => None
  end.

(** [parseInt(v)]: the argument is converted with [ToString] first. *)
Definition parseInt (v : JSValue) : option Z := parseInt_string (to_string v).

(** [parseInt(v) || 0]: NaN and 0 are falsy. *)
Definition parseInt_or_0 (v : JSValue) : Z := default 0 (parseInt v).

(** [parseInt(v) || null]: NaN and 0 are falsy, so both give [null]. *)
Definition parseInt_or_null (v : JSValue) : JSValue :=
  match parseInt v with
  | Some z => if z =? 0 then JNull else JNum z
  | None => JNull
  end.

End JS.
Export JS.

(* ===================================================================== *)
(** ** Numbers: binary64 division and multiplication, toFixed(1) *)
(* ===================================================================== *)

Module Num.

(** A JavaScript number as the rate formula sees it: NaN, an infinity, or
    a finite double given by its exact rational value. *)
Inductive jsnum :=
| NaN
| Inf (neg : bool)
| Fin (q : Q).

Definition pow2 (e : Z) : Q := Qpower 2 e.

(** [floor (log2 q)] for [q > 0]: the difference of the bit lengths of
    numerator and denominator, or one less. *)
Definition ilog2 (q : Q) : Z :=
  let l := Z.log2 (Qnum q) - Z.log2 (Zpos (Qden q)) in
  if Qle_bool (pow2 l) q then l else l - 1.

(** The integer nearest to [q], the even one of two at equal distance. *)
Definition round_half_even (q : Q) : Z :=
  let f := Qfloor q in
  match (q - inject_Z f ?= 1 # 2)%Q with
  | Lt => f
  | Gt => f + 1
  | Eq => if Z.even f then f else f + 1
  end.

(** Rounding of an exact positive result to binary64, round to nearest,
    ties to even: a 53-bit significand [m] at exponent [e], the exponent no
    lower than that of the subnormals; 2^1024 and above is Infinity. *)
Definition b64_round_pos (q : Q) : jsnum :=
  let e := Z.max (ilog2 q - 52) (-1074) in
  let m := round_half_even (q / pow2 e) in
  if (m =? 0) then Fin 0
  else if 1024 <=? Z.log2 m + e then Inf false
  else Fin (Qred (inject_Z m * pow2 e)).

Definition jsneg (x : jsnum) : jsnum :=
  match x with
  | NaN => NaN
  | Inf s => Inf (negb s)
  | Fin q => Fin (- q)
  end.

Definition b64_round (q : Q) : jsnum :=
  match (q ?= 0)%Q with
  | Eq => Fin 0
  | Gt => b64_round_pos q
  | Lt => jsneg (b64_round_pos (- q))
  end.

Definition is_neg (q : Q) : bool := Qle_bool q 0 && negb (Qeq_bool q 0).

(** [x / y] on numbers.  The sign of a zero is not tracked: the divisors
    of this program, [parseInt(..) || 0] and sums of such, are never -0,
    and [toFixed], the only consumer, prints both zeros alike. *)
Definition js_div (x y : jsnum) : jsnum :=
  match x, y with
  | NaN, _ | _, NaN => NaN
  | Inf _, Inf _ => NaN
  | Inf s, Fin q => Inf (xorb s (is_neg q))
  | Fin _, Inf _ => Fin 0
  | Fin p, Fin q =>
      if Qeq_bool q 0 then (if Qeq_bool p 0 then NaN else Inf (is_neg p))
      else b64_round (p / q)
  end.

(** [x * y] on numbers. *)
Definition js_mul (x y : jsnum) : jsnum :=
  match x, y with
  | NaN, _ | _, NaN => NaN
  | Inf s, Inf t => Inf (xorb s t)
  | Inf s, Fin q | Fin q, Inf s =>
      if Qeq_bool q 0 then NaN else Inf (xorb s (is_neg q))
  | Fin p, Fin q => b64_round (p * q)
  end.

(** The string [x.toFixed(1)] returns, by its parts. *)
Inductive Fixed1 :=
| FxNaN                          (* "NaN" *)
| FxInf (neg : bool)             (* "Infinity", "-Infinity" *)
| FxExp (q : Q)                  (* 10^21 and above: exponent notation *)
| FxDec (neg : bool) (n : Z).    (* sign, then n/10 with one decimal *)

(** [Number.prototype.toFixed(1)]: for a finite [x] below 10^21 in
    magnitude, the integer [n] for which [n / 10 - |x|] is closest to
    zero, the larger [n] of two. *)
Definition toFixed1 (x : jsnum) : Fixed1 :=
  match x with
  | NaN => FxNaN
  | Inf s => FxInf s
  | Fin q =>
      if Qle_bool (inject_Z (10 ^ 21)) (Qabs q) then FxExp q
      else FxDec (is_neg q) (Qfloor (Qabs q * 10 + (1 # 2)))
  end.

(** The characters of the string; [None] for the exponent notation of
    [Number.prototype.toString], which is not spelled out here. *)
Definition fixed1_string (f : Fixed1) : option string :=
  match f with
  | FxNaN => Some "NaN"
  | FxInf false => Some "Infinity"
  | FxInf true => Some "-Infinity"
  | FxExp _ => None
  | FxDec s n =>
      Some ((if s then "-" else "") ++ string_of_Z (n / 10) ++ "."
            ++ string_of_Z (n mod 10))%string
  end.

(** The number read back from the string by [ToNumber] and [parseFloat]:
    its decimal value.  (The double nearest to it is what JavaScript
    compares; below 2^49 doubles are less than a tenth apart, so that
    comparing one-decimal values and comparing their doubles agree.) *)
Definition fixed1_number (f : Fixed1) : jsnum :=
  match f with
  | FxNaN => NaN
  | FxInf s => Inf s
  | FxExp q => Fin q
  | FxDec s n => Fin (if s then - (n # 10) else n # 10)
  end.

(** [x < y] on numbers: false when either is NaN. *)
Definition num_ltb (x y : jsnum) : bool :=
  match x, y with
  | NaN, _ | _, NaN => false
  | Inf sx, Inf sy => sx && negb sy
  | Inf s, Fin _ => s
  | Fin _, Inf s => negb s
  | Fin p, Fin q => negb (Qle_bool q p)
  end.

End Num.
Export Num.

Module Hardware.

(** The same formula on the machine's binary64 numbers, to compare the
    rounding of [Num] with: [float_of_Z] is exact from 0 up to 2^53. *)
Definition float_of_Z (z : Z) : float := PrimFloat.of_uint63 (Uint63.of_Z z).

Definition jsnum_of_float (f : float) : jsnum :=
  match Prim2SF f with
  | S754_zero _ => Fin 0
  | S754_infinity s => Inf s
  | S754_nan => Num.NaN
  | S754_finite s m e =>
      Fin (Qred ((if s then -1 else 1) * inject_Z (Zpos m) * pow2 e))
  end.

Definition times100 (num total : Z) : jsnum :=
  jsnum_of_float (PrimFloat.mul (PrimFloat.div (float_of_Z num) (float_of_Z total))
                                (float_of_Z 100)).

(** Equality of the two results, field by field. *)
Definition jsnum_eqb (a b : jsnum) : bool :=
  match a, b with
  | Num.NaN, Num.NaN => true
  | Inf s, Inf t => Bool.eqb s t
  | Fin p, Fin q => (Qnum p =? Qnum q) && Pos.eqb (Qden p) (Qden q)
  | _, _ => false
  end.

Definition agrees (num total : Z) : bool :=
  jsnum_eqb (js_mul (js_div (Fin (inject_Z num)) (Fin (inject_Z total))) (Fin 100))
            (times100 num total).

(** All pairs of counts below [n]. *)
Definition grid (n : nat) : list (Z * Z) :=
  p ← Z.of_nat <$> seq 0 n; t ← Z.of_nat <$> seq 0 n; [(p, t)].

End Hardware.

(* ===================================================================== *)
(** ** Exceptions *)
(* ===================================================================== *)

Inductive Error :=
| SourceReadError (file : string)   (* XLSX.readFile throws *)
| TypeError (what : string).        (* a method or property of a value that has none *)

Inductive result (A : Type) :=
| Ok (a : A)
| Throw (e : Error).
Arguments Ok {A} a.
Arguments Throw {A} e.

#[global] Instance result_ret : MRet result := fun A a => Ok a.

#[global] Instance result_bind : MBind result := fun A B k m =>
  match m with
  | Ok a => k a
  | Throw e => Throw e
  end.

(* ===================================================================== *)
(** ** GeoRecord and the row normalisers *)
(* ===================================================================== *)

Module Normalizer.

Abbreviation RawRow := (gmap string JSValue).

(** [row[k]]: [undefined] for a column the row does not have. *)
Definition cell (row : RawRow) (k : string) : JSValue := default JUndefined (row !! k).

(** The values [geoLevel] takes in this program. *)
Inductive GeoLevel := county | subcounty | city | town | cdp | tract.

Definition geoLevel_string (l : GeoLevel) : string :=
  match l with
  | county => "county" | subcounty => "subcounty" | city => "city"
  | town => "town" | cdp => "cdp" | tract => "tract"
  end.

Definition is_county (l : GeoLevel) : bool :=
  match l with county => true | _ => false end.

(** A rate field: the number 0 it is initialised with, or the string that
    [toFixed(1)] returned. *)
Inductive RateValue :=
| RateNum0
| RateStr (f : Fixed1).

(** A property a record object does not have reads as [JUndefined]:
    [geoType] on county records, [stateAbbr] and the six demographic
    fields on subcounty records. *)
Record GeoRecord := {
  geoID : string;
  geoLevel : GeoLevel;
  geoType : JSValue;
  geoDisplayLabel : JSValue;
  state : JSValue;
  stateAbbr : JSValue;
  countyName : JSValue;          (* the property [county] *)
  year : JSValue;
  totalHouseholds : Z;
  povertyHouseholds : Z;
  aliceHouseholds : Z;
  aboveAliceHouseholds : Z;
  povertyRate : RateValue;
  aliceRate : RateValue;
  combinedRate : RateValue;
  povertyHH_Black : JSValue;
  povertyHH_Hispanic : JSValue;
  povertyHH_White : JSValue;
  aliceHH_Black : JSValue;
  aliceHH_Hispanic : JSValue;
  aliceHH_White : JSValue;
  dataSource : string
}.

(** [((num / total) * 100).toFixed(1)]. *)
Definition percent (num total : Z) : Fixed1 :=
  toFixed1 (js_mul (js_div (Fin (inject_Z num)) (Fin (inject_Z total))) (Fin 100)).

Record Rates := { r_poverty : RateValue; r_alice : RateValue; r_combined : RateValue }.

(** The three rates of a record: 0 as initialised, overwritten only under
    [if (record.totalHouseholds > 0)]. *)
Definition calcRates (total poverty alice : Z) : Rates :=
  if 0 <? total then
    {| r_poverty := RateStr (percent poverty total);
       r_alice := RateStr (percent alice total);
       r_combined := RateStr (percent (poverty + alice) total) |}
  else
    {| r_poverty := RateNum0; r_alice := RateNum0; r_combined := RateNum0 |}.

(** The callback of [countyData.forEach]: the record pushed for a row
    whose [GEO id2] is truthy, [None] for a row that is skipped. *)
Definition countyRecord (row : RawRow) : option GeoRecord :=
  if truthy (cell row "GEO id2") then
    let total := parseInt_or_0 (cell row "Households") in
    let poverty := parseInt_or_0 (cell row "Poverty Households") in
    let alice := parseInt_or_0 (cell row "ALICE Households") in
    let rates := calcRates total poverty alice in
    Some {|
      geoID := padStart 5 "0" (to_string (cell row "GEO id2"));
      geoLevel := county;
      geoType := JUndefined;
      geoDisplayLabel := js_or (cell row "GEO display_label") (cell row "County");
      state := cell row "State";
      stateAbbr := cell row "State Abbr";
      countyName := cell row "County";
      year := cell row "Year";
      totalHouseholds := total;
      povertyHouseholds := poverty;
      aliceHouseholds := alice;
      aboveAliceHouseholds := parseInt_or_0 (cell row "Above ALICE Households");
      povertyRate := r_poverty rates;
      aliceRate := r_alice rates;
      combinedRate := r_combined rates;
      povertyHH_Black := parseInt_or_null (cell row "Poverty HH Black");
      povertyHH_Hispanic := parseInt_or_null (cell row "Poverty HH Hispanic");
      povertyHH_White := parseInt_or_null (cell row "Poverty HH White");
      aliceHH_Black := parseInt_or_null (cell row "ALICE HH Black");
      aliceHH_Hispanic := parseInt_or_null (cell row "ALICE HH Hispanic");
      aliceHH_White := parseInt_or_null (cell row "ALICE HH White");
      dataSource := "County Sheet"
    |}
  else None.

(** The [if / else if] chain on the lower-cased [Type]. *)
Definition levelOfType (ty : string) : GeoLevel :=
  if includes (toLowerCase ty) "city" then city
  else if includes (toLowerCase ty) "town" then town
  else if includes (toLowerCase ty) "cdp" then cdp
  else if includes (toLowerCase ty) "tract" then tract
  else subcounty.

(** [geoLevel] of a subcounty row.  A truthy [Type] that is not a string
    (a non-zero number, [true]) has no [toLowerCase]: a TypeError. *)
Definition subcountyLevel (ty : JSValue) (geoID : string) : result GeoLevel :=
  byType ← (if truthy ty then
               match ty with
               | JStr s => Ok (levelOfType s)
               | _ => Throw (TypeError "row.Type.toLowerCase is not a function")
               end
             else Ok subcounty);
  Ok (if negb (truthy ty) && (String.length geoID =? 11)%nat then tract else byType).

(** The callback of [subcountyData.forEach]. *)
Definition subcountyRecord (row : RawRow) : result (option GeoRecord) :=
  if truthy (cell row "GEO id2") then
    let id := to_string (cell row "GEO id2") in
    level ← subcountyLevel (cell row "Type") id;
    let total := parseInt_or_0 (cell row "Households") in
    let poverty := parseInt_or_0 (cell row "Poverty Households") in
    let alice := parseInt_or_0 (cell row "ALICE Households") in
    let rates := calcRates total poverty alice in
    Ok (Some {|
      geoID := id;
      geoLevel := level;
      geoType := js_or (cell row "Type") (JStr "subcounty");
      geoDisplayLabel := cell row "GEO display_label";
      state := cell row "State";
      stateAbbr := JUndefined;
      countyName := js_or (cell row "County") JNull;
      year := cell row "Year";
      totalHouseholds := total;
      povertyHouseholds := poverty;
      aliceHouseholds := alice;
      aboveAliceHouseholds := parseInt_or_0 (cell row "Above ALICE Households");
      povertyRate := r_poverty rates;
      aliceRate := r_alice rates;
      combinedRate := r_combined rates;
      povertyHH_Black := JUndefined;
      povertyHH_Hispanic := JUndefined;
      povertyHH_White := JUndefined;
      aliceHH_Black := JUndefined;
      aliceHH_Hispanic := JUndefined;
      aliceHH_White := JUndefined;
      dataSource := "Subcounty Sheet"
    |})
  else Ok None.

End Normalizer.
Export Normalizer.

(* ===================================================================== *)
(** ** createAggregatedStats: the computation *)
(* ===================================================================== *)

Module National.
(** [aggregated.national]: four sums, then the three rate strings. *)
Record t := {
  totalHouseholds : Z;
  povertyHouseholds : Z;
  aliceHouseholds : Z;
  aboveAliceHouseholds : Z;
  povertyRate : Fixed1;
  aliceRate : Fixed1;
  combinedRate : Fixed1
}.
End National.

Module StateEntry.
(** One value of [aggregated.byState]. *)
Record t := {
  totalHouseholds : Z;
  povertyHouseholds : Z;
  aliceHouseholds : Z;
  counties : list JSValue
}.
End StateEntry.

Module Extreme.
(** One element of [highestCombinedRate] / [lowestCombinedRate]. *)
Record t := {
  location : string;
  combinedRate : RateValue;
  povertyRate : RateValue;
  aliceRate : RateValue;
  totalHouseholds : Z
}.
End Extreme.

Module Aggregator.

(** The sums while [database.forEach] runs. *)
Record Sums := {
  s_total : Z;
  s_poverty : Z;
  s_alice : Z;
  s_above : Z;
  s_byState : gmap string StateEntry.t
}.

Record AggregateReport := {
  national : National.t;
  byState : gmap string StateEntry.t;
  highestCombinedRate : list Extreme.t;
  lowestCombinedRate : list Extreme.t
}.

(** The names [aggregated.byState], an object literal, inherits from
    [Object.prototype]: [byState[k]] is truthy for them although no entry
    was stored. *)
Definition object_prototype_keys : list string :=
  [ "constructor"; "__defineGetter__"; "__defineSetter__"; "hasOwnProperty";
    "__lookupGetter__"; "__lookupSetter__"; "isPrototypeOf";
    "propertyIsEnumerable"; "toString"; "valueOf"; "__proto__";
    "toLocaleString" ].

Definition inherited (k : string) : bool := bool_decide (k ∈ object_prototype_keys).

(** The property key [record.state] is used as. *)
Definition stateKey (r : GeoRecord) : string := to_string (state r).

Definition emptyEntry : StateEntry.t :=
  {| StateEntry.totalHouseholds := 0; StateEntry.povertyHouseholds := 0;
     StateEntry.aliceHouseholds := 0; StateEntry.counties := [] |}.

Definition addToEntry (e : StateEntry.t) (r : GeoRecord) : StateEntry.t :=
  {| StateEntry.totalHouseholds := StateEntry.totalHouseholds e + totalHouseholds r;
     StateEntry.povertyHouseholds := StateEntry.povertyHouseholds e + povertyHouseholds r;
     StateEntry.aliceHouseholds := StateEntry.aliceHouseholds e + aliceHouseholds r;
     StateEntry.counties := StateEntry.counties e ++ [countyName r] |}.

(** The entry the four statements after the [if (!byState[k])] block work
    on.  Under an inherited name the block is skipped, the value found has
    no [counties], and [.counties.push] throws. *)
Definition entryFor (m : gmap string StateEntry.t) (k : string) : result StateEntry.t :=
  match m !! k with
  | Some e => Ok e
  | None =>
      if inherited k
      then Throw (TypeError "Cannot read properties of undefined (reading 'push')")
      else Ok emptyEntry
  end.

(** The callback of [database.forEach]. *)
Definition accumulate (acc : Sums) (r : GeoRecord) : result Sums :=
  if is_county (geoLevel r) then
    e ← entryFor (s_byState acc) (stateKey r);
    Ok {| s_total := s_total acc + totalHouseholds r;
          s_poverty := s_poverty acc + povertyHouseholds r;
          s_alice := s_alice acc + aliceHouseholds r;
          s_above := s_above acc + aboveAliceHouseholds r;
          s_byState := <[stateKey r := addToEntry e r]> (s_byState acc) |}
  else Ok acc.

(** [forEach] with a callback that may throw: the first exception ends
    the loop. *)
Fixpoint forEachM {S A} (f : S -> A -> result S) (l : list A) (s : S) : result S :=
  match l with
  | [] => Ok s
  | x :: l' => s' ← f s x; forEachM f l' s'
  end.

Definition noSums : Sums :=
  {| s_total := 0; s_poverty := 0; s_alice := 0; s_above := 0; s_byState := ∅ |}.

(** The number an expression reads a rate field as ([ToNumber],
    [parseFloat]). *)
Definition rateNumber (v : RateValue) : jsnum :=
  match v with
  | RateNum0 => Fin 0
  | RateStr f => fixed1_number f
  end.

(** The filter of the ranking:
    [r.geoLevel === 'county' && r.combinedRate > 0]. *)
Definition rankable (r : GeoRecord) : bool :=
  is_county (geoLevel r) && num_ltb (Fin 0) (rateNumber (combinedRate r)).

(** The comparator [parseFloat(b.combinedRate) - parseFloat(a.combinedRate)]
    is positive, so that [b] is placed before [a], exactly when [a]'s rate
    is below [b]'s. *)
Definition placedAfter (a b : GeoRecord) : bool :=
  num_ltb (rateNumber (combinedRate a)) (rateNumber (combinedRate b)).

(** [Array.prototype.sort] is stable; with a consistent comparator its
    result is the one of a stable insertion sort. *)
Fixpoint insertBy {A} (after : A -> A -> bool) (x : A) (l : list A) : list A :=
  match l with
  | [] => [x]
  | y :: l' => if after x y then y :: insertBy after x l' else x :: l
  end.

Definition sortBy {A} (after : A -> A -> bool) (l : list A) : list A :=
  foldr (insertBy after) [] l.

Definition sortedByRate (db : list GeoRecord) : list GeoRecord :=
  sortBy placedAfter (filter rankable db).

(** [a.slice(-n)]: the last [n] elements, all of them when there are
    fewer. *)
Definition sliceLast {A} (n : nat) (l : list A) : list A := drop (length l - n) l.

(** The object the two [map] callbacks build. *)
Definition extreme (r : GeoRecord) : Extreme.t :=
  {| Extreme.location :=
       (to_string (countyName r) ++ ", " ++ to_string (js_or (stateAbbr r) (state r)))%string;
     Extreme.combinedRate := combinedRate r;
     Extreme.povertyRate := povertyRate r;
     Extreme.aliceRate := aliceRate r;
     Extreme.totalHouseholds := totalHouseholds r |}.

(** The report [createAggregatedStats] builds, before it is written. *)
Definition aggregate (db : list GeoRecord) : result AggregateReport :=
  acc ← forEachM accumulate db noSums;
  let sorted := sortedByRate db in
  Ok {| national :=
          {| National.totalHouseholds := s_total acc;
             National.povertyHouseholds := s_poverty acc;
             National.aliceHouseholds := s_alice acc;
             National.aboveAliceHouseholds := s_above acc;
             National.povertyRate := percent (s_poverty acc) (s_total acc);
             National.aliceRate := percent (s_alice acc) (s_total acc);
             National.combinedRate := percent (s_poverty acc + s_alice acc) (s_total acc) |};
        byState := s_byState acc;
        highestCombinedRate := extreme <$> take 10 sorted;
        lowestCombinedRate := extreme <$> reverse (sliceLast 10 sorted) |}.

End Aggregator.
Export Aggregator.

(* ===================================================================== *)
(** ** buildMasterDatabase, createAggregatedStats and main: the effects *)
(* ===================================================================== *)

Module Pipeline.

(** A parsed workbook: sheet name to the rows [sheet_to_json] returns. *)
Abbreviation Workbook := (gmap string (list RawRow)).

(** A directory entry and what [XLSX.readFile] does on it: the workbook,
    or [None] when it throws. *)
Record InputFile := {
  fileName : string;
  readFile : option Workbook
}.

Definition endsWith (s suffix : string) : bool :=
  let n := String.length s in
  let m := String.length suffix in
  (m <=? n)%nat && String.eqb (String.substring (n - m) m s) suffix.

(** The files written, with the payload each is serialised from.  Of
    [geoStats] only [totalRecords], the number of records pushed, is
    kept here; the counters themselves are followed in [Statistics]. *)
Inductive Artifact :=
| MasterCsv (db : list GeoRecord)          (* alice_master_database.csv *)
| MasterJson (db : list GeoRecord)         (* alice_master_database.json *)
| DatabaseStatistics (totalRecords : nat)  (* database_statistics.json *)
| AggregatedStats (a : AggregateReport).   (* alice_aggregated_stats.json *)

Record World := {
  written : list Artifact;
  consoleError : list Error
}.

Definition IO (A : Type) : Type := World -> result A * World.

#[global] Instance IO_ret : MRet IO := fun A a w => (Ok a, w).

#[global] Instance IO_bind : MBind IO := fun A B k m w =>
  match m w with
  | (Ok a, w') => k a w'
  | (Throw e, w') => (Throw e, w')
  end.

(** Running pure code that may throw. *)
Definition lift {A} (r : result A) : IO A := fun w => (r, w).

Definition writeFile (a : Artifact) : IO unit := fun w =>
  (Ok tt, {| written := written w ++ [a]; consoleError := consoleError w |}).

(** [try { body } catch (error) { console.error(..., error) }]. *)
Definition tryCatch (body : IO unit) : World -> World := fun w =>
  match body w with
  | (Ok _, w') => w'
  | (Throw e, w') =>
      {| written := written w'; consoleError := consoleError w' ++ [e] |}
  end.

(** The County block of the loop body: the records pushed. *)
Definition countyRecords (wb : Workbook) : list GeoRecord :=
  match wb !! "County" with
  | Some rows => omap countyRecord rows
  | None => []
  end.

(** The Subcounty block: [masterDatabase] after its [forEach]. *)
Definition pushSubcounty (db : list GeoRecord) (row : RawRow) : result (list GeoRecord) :=
  r ← subcountyRecord row;
  Ok (db ++ option_list r).

Definition subcountyRecords (wb : Workbook) (db : list GeoRecord) : result (list GeoRecord) :=
  match wb !! "Subcounty" with
  | Some rows => forEachM pushSubcounty rows db
  | None => Ok db
  end.

(** One iteration of [for (const file of excelFiles)]. *)
Definition processFile (db : list GeoRecord) (f : InputFile) : result (list GeoRecord) :=
  match readFile f with
  | None => Throw (SourceReadError (fileName f))
  | Some wb => subcountyRecords wb (db ++ countyRecords wb)
  end.

Definition excelFiles (dir : list InputFile) : list InputFile :=
  filter (fun f => Is_true (endsWith (fileName f) ".xlsx")) dir.

(** [masterDatabase] when the loop ends, or the exception that ended it. *)
Definition masterDatabase (dir : list InputFile) : result (list GeoRecord) :=
  forEachM processFile (excelFiles dir) [].

Definition buildMasterDatabase (dir : list InputFile) : IO (list GeoRecord) :=
  db ← lift (masterDatabase dir);
  _ ← writeFile (MasterCsv db);
  _ ← writeFile (MasterJson db);
  _ ← writeFile (DatabaseStatistics (length db));
  mret db.

Definition createAggregatedStats (db : list GeoRecord) : IO AggregateReport :=
  a ← lift (aggregate db);
  _ ← writeFile (AggregatedStats a);
  mret a.

Definition main (dir : list InputFile) : World -> World :=
  tryCatch (db ← buildMasterDatabase dir;
            _ ← createAggregatedStats db;
            mret tt).

Definition emptyWorld : World := {| written := []; consoleError := [] |}.

End Pipeline.
Export Pipeline.

(* ===================================================================== *)
(** ** createAggregatedStats on the heap: arrays and records by reference *)
(* ===================================================================== *)

Module Store.

Definition loc := positive.

(** Record objects and arrays of references to them. *)
Record Heap := {
  objects : gmap loc GeoRecord;
  arrays : gmap loc (list loc)
}.

Definition ST (A : Type) : Type := Heap -> result A * Heap.

#[global] Instance ST_ret : MRet ST := fun A a h => (Ok a, h).

#[global] Instance ST_bind : MBind ST := fun A B k m h =>
  match m h with
  | (Ok a, h') => k a h'
  | (Throw e, h') => (Throw e, h')
  end.

Definition raise {A} (e : Error) : ST A := fun h => (Throw e, h).

Definition liftR {A} (r : result A) : ST A := fun h => (r, h).

(** The elements of the array at [a]. *)
Definition elements (a : loc) : ST (list loc) := fun h =>
  match arrays h !! a with
  | Some l => (Ok l, h)
  | None => (Throw (TypeError "not an array"), h)
  end.

(** The record object at [r], to read its properties. *)
Definition deref (r : loc) : ST GeoRecord := fun h =>
  match objects h !! r with
  | Some o => (Ok o, h)
  | None => (Throw (TypeError "Cannot read properties of undefined"), h)
  end.

Fixpoint derefAll (l : list loc) : ST (list GeoRecord) :=
  match l with
  | [] => mret []
  | r :: l' => o ← deref r; os ← derefAll l'; mret (o :: os)
  end.

(** The heap with [l] as the array at [a]. *)
Definition setArray (a : loc) (l : list loc) (h : Heap) : Heap :=
  {| objects := objects h; arrays := <[a := l]> (arrays h) |}.

(** A new array holding [l]; its reference. *)
Definition allocArray (l : list loc) : ST loc := fun h =>
  let a := fresh (dom (arrays h)) in (Ok a, setArray a l h).

(** Overwrite the array at [a]: what [sort] and [reverse] do. *)
Definition storeArray (a : loc) (l : list loc) : ST unit := fun h =>
  (Ok tt, setArray a l h).

(** [a.forEach(cb)] with the accumulator the callback closes over. *)
Definition arrayForEach {S} (cb : S -> GeoRecord -> result S) (a : loc) (s : S) : ST S :=
  l ← elements a;
  os ← derefAll l;
  liftR (forEachM cb os s).

(** [a.filter(p)]: a new array. *)
Definition arrayFilter (p : GeoRecord -> bool) (a : loc) : ST loc :=
  l ← elements a;
  os ← derefAll l;
  allocArray (fst <$> filter (fun x => Is_true (p (snd x))) (zip l os)).

(** [a.sort(cmp)]: sorts the array at [a] in place and returns [a]. *)
Definition arraySort (after : GeoRecord -> GeoRecord -> bool) (a : loc) : ST loc :=
  l ← elements a;
  os ← derefAll l;
  _ ← storeArray a (fst <$> sortBy (fun x y => after (snd x) (snd y)) (zip l os));
  mret a.

(** [a.slice(0, n)] and [a.slice(-n)]: new arrays. *)
Definition arraySliceFirst (n : nat) (a : loc) : ST loc :=
  l ← elements a; allocArray (take n l).

Definition arraySliceLast (n : nat) (a : loc) : ST loc :=
  l ← elements a; allocArray (sliceLast n l).

(** [a.reverse()]: reverses the array at [a] in place and returns [a]. *)
Definition arrayReverse (a : loc) : ST loc :=
  l ← elements a;
  _ ← storeArray a (reverse l);
  mret a.

(** [a.map(f)] where [f] builds a new object from the record's fields:
    the objects built. *)
Definition arrayMap {B} (f : GeoRecord -> B) (a : loc) : ST (list B) :=
  l ← elements a;
  os ← derefAll l;
  mret (f <$> os).

(** [createAggregatedStats(database)], statement by statement. *)
Definition createAggregatedStats (database : loc) : ST AggregateReport :=
  acc ← arrayForEach accumulate database noSums;
  filtered ← arrayFilter rankable database;
  sortedByRate ← arraySort placedAfter filtered;
  first10 ← arraySliceFirst 10 sortedByRate;
  highest ← arrayMap extreme first10;
  last10 ← arraySliceLast 10 sortedByRate;
  reversed ← arrayReverse last10;
  lowest ← arrayMap extreme reversed;
  mret {| national :=
            {| National.totalHouseholds := s_total acc;
               National.povertyHouseholds := s_poverty acc;
               National.aliceHouseholds := s_alice acc;
               National.aboveAliceHouseholds := s_above acc;
               National.povertyRate := percent (s_poverty acc) (s_total acc);
               National.aliceRate := percent (s_alice acc) (s_total acc);
               National.combinedRate := percent (s_poverty acc + s_alice acc) (s_total acc) |};
          byState := s_byState acc;
          highestCombinedRate := highest;
          lowestCombinedRate := lowest |}.

End Store.

(* ===================================================================== *)
(** ** Reference definitions and sample inputs *)
(* ===================================================================== *)

Module Reference.

(** [k] zeros. *)
Fixpoint zeros (k : nat) : string :=
  match k with
  | O => EmptyString
  | S k' => String "0" (zeros k')
  end.

(** The classification policy as an ordered rule list, first match wins. *)
Definition typeRules : list (string * GeoLevel) :=
  [("city", city); ("town", town); ("cdp", cdp); ("tract", tract)].

Fixpoint firstMatch (rules : list (string * GeoLevel)) (lowered : string) : GeoLevel :=
  match rules with
  | [] => subcounty
  | (word, level) :: rest =>
      if includes lowered word then level else firstMatch rest lowered
  end.

Definition sumZ (l : list Z) : Z := foldr Z.add 0 l.

(** The county-level records of a collection, and those of one state. *)
Definition countiesOf (db : list GeoRecord) : list GeoRecord :=
  filter (fun r => Is_true (is_county (geoLevel r))) db.


(** No county-level record carries a state name that [Object.prototype]
    defines: the collections [createAggregatedStats] returns on. *)
Definition plainStates (db : list GeoRecord) : Prop :=
  Forall (fun r => is_county (geoLevel r) = true -> inherited (stateKey r) = false) db.

(** A heap [h] in which the record objects and the arrays of [h0] are as
    they are in [h0]. *)
Definition unchanged (h0 h : Store.Heap) : Prop :=
  Store.objects h = Store.objects h0 /\
  forall a, a ∈ dom (Store.arrays h0) -> Store.arrays h !! a = Store.arrays h0 !! a.

(** The references [refs] lead to the records [recs]. *)
Definition resolves (objs : gmap Store.loc GeoRecord)
    (refs : list Store.loc) (recs : list GeoRecord) : Prop :=
  Forall2 (fun a r => objs !! a = Some r) refs recs.

(** A step of a computation on the heap keeps [unchanged h0], and its
    result, when it returns one, satisfies [Q]. *)
Definition keeps (h0 : Store.Heap) {A} (m : Store.ST A) (Q : A -> Prop) : Prop :=
  forall h, unchanged h0 h ->
    unchanged h0 (snd (m h)) /\
    forall a, fst (m h) = Ok a -> Q a.

(** The tenths [n] are within half a tenth of [100 * num / total]: the
    one-decimal number [n / 10] is a nearest one to the exact rate. *)
Definition nearestTenth (n num total : Z) : Prop :=
  2 * Z.abs (n * total - 1000 * num) <= total.

(** The number a record is ranked by, and records of equal rank. *)
Definition rateOf (r : GeoRecord) : jsnum := rateNumber (combinedRate r).

(** For a comparator [after]: [x] may stand before [y]; neither has to
    stand after the other. *)
Definition notAfter {A} (after : A -> A -> bool) (x y : A) : Prop := after x y = false.

Definition tie {A} (after : A -> A -> bool) (x y : A) : bool :=
  negb (after x y) && negb (after y x).

End Reference.
Export Reference.

Module Samples.

Definition row (cells : list (string * JSValue)) : RawRow := list_to_map cells.

(** The county row of the rate example. *)
Definition autauga : RawRow :=
  row [("GEO id2", JNum 1001); ("GEO display_label", JStr "Autauga County, Alabama");
       ("State", JStr "Alabama"); ("State Abbr", JStr "AL"); ("County", JStr "Autauga");
       ("Year", JNum 2021); ("Households", JNum 1000);
       ("Poverty Households", JNum 150); ("ALICE Households", JNum 300);
       ("Above ALICE Households", JNum 550)].

(** A county row whose identifier has six digits. *)
Definition sixDigits : RawRow :=
  row [("GEO id2", JNum 123456); ("County", JStr "Wide"); ("Households", JNum 10)].

(** A county row with no households and a demographic column holding 0. *)
Definition emptyCounty : RawRow :=
  row [("GEO id2", JNum 1003); ("County", JStr "Empty"); ("Households", JNum 0);
       ("Poverty HH Black", JNum 0); ("ALICE HH White", JNum 7)].

(** A county row with counts at the limit of exact integers. *)
Definition hugeCounts : RawRow :=
  row [("GEO id2", JNum 1005); ("County", JStr "Huge"); ("Households", JNum 1);
       ("Poverty Households", JNum 9007199254740991)].

(** A county row whose poverty rate is the tie 0.15. *)
Definition tieRate : RawRow :=
  row [("GEO id2", JNum 1007); ("County", JStr "Tie"); ("Households", JNum 2000);
       ("Poverty Households", JNum 3)].

(** Subcounty rows. *)
Definition placeSpelledOut : RawRow :=
  row [("GEO id2", JStr "0100124"); ("Type", JStr "Census Designated Place")].

Definition placeAbbreviated : RawRow :=
  row [("GEO id2", JStr "0100124"); ("Type", JStr "CDP")].

Definition tractNoType : RawRow :=
  row [("GEO id2", JStr "01001020100"); ("Households", JNum 0)].

Definition plainNoType : RawRow :=
  row [("GEO id2", JStr "0100190171")].

(** A county-level record with given state, name and counts. *)
Definition countyOf (st name : string) (total poverty alice : Z) : GeoRecord :=
  let rates := calcRates total poverty alice in
  {| geoID := "00000"; geoLevel := county; geoType := JUndefined;
     geoDisplayLabel := JStr name; state := JStr st; stateAbbr := JUndefined;
     countyName := JStr name; year := JNum 2021;
     totalHouseholds := total; povertyHouseholds := poverty;
     aliceHouseholds := alice; aboveAliceHouseholds := total - poverty - alice;
     povertyRate := r_poverty rates; aliceRate := r_alice rates;
     combinedRate := r_combined rates;
     povertyHH_Black := JNull; povertyHH_Hispanic := JNull; povertyHH_White := JNull;
     aliceHH_Black := JNull; aliceHH_Hispanic := JNull; aliceHH_White := JNull;
     dataSource := "County Sheet" |}.


(** Counties with combined rates 10, 50, 50 and 5. *)
Definition fourCounties : list GeoRecord :=
  [ countyOf "Alabama" "A" 100 4 6; countyOf "Alabama" "B" 100 20 30;
    countyOf "Georgia" "C" 100 25 25; countyOf "Georgia" "D" 200 4 6 ].


(** A directory of three workbooks, the second of which cannot be read,
    and the same directory without it. *)
Definition firstFile : InputFile :=
  {| fileName := "alabama_data.xlsx";
     readFile := Some (list_to_map [("County", [autauga])]) |}.

Definition brokenFile : InputFile :=
  {| fileName := "broken_data.xlsx"; readFile := None |}.

Definition lastFile : InputFile :=
  {| fileName := "georgia_data.xlsx";
     readFile := Some (list_to_map [("Subcounty", [placeAbbreviated])]) |}.

Definition threeFiles : list InputFile := [firstFile; brokenFile; lastFile].

Definition twoFiles : list InputFile := [firstFile; lastFile].

(** A heap holding the four counties and the array [database] of them. *)
Definition fourOnHeap : Store.Heap :=
  {| Store.objects := list_to_map (zip [1; 2; 3; 4]%positive fourCounties);
     Store.arrays := {[ 7%positive := [1; 2; 3; 4]%positive ]} |}.

End Samples.

(* ===================================================================== *)
(** ** Directories that are processed to the end *)
(* ===================================================================== *)

Module Clean.

(** A Subcounty row at which the callback throws: identifier and [Type]
    are truthy and [Type] is not a string. *)
Definition rowThrows (row : RawRow) : bool :=
  truthy (cell row "GEO id2") && truthy (cell row "Type") &&
  match cell row "Type" with JStr _ => false | _ => true end.

(** The rows of a sheet, none when the workbook has no such sheet. *)
Definition sheetRows (wb : Workbook) (name : string) : list RawRow :=
  default [] (wb !! name).

(** The records of the Subcounty rows at which the callback returns. *)
Definition subcountyEmitted (rows : list RawRow) : list GeoRecord :=
  omap (fun row => match subcountyRecord row with
                   | Ok o => o
                   | Throw _ => None
                   end) rows.

(** The records of one workbook: the County sheet first. *)
Definition fileRecords (wb : Workbook) : list GeoRecord :=
  countyRecords wb ++ subcountyEmitted (sheetRows wb "Subcounty").

(** A file that is read and none of whose Subcounty rows throws. *)
Definition clean (f : InputFile) : Prop :=
  exists wb, readFile f = Some wb /\
    Forall (fun row => rowThrows row = false) (sheetRows wb "Subcounty").

Definition recordsOf (f : InputFile) : list GeoRecord :=
  match readFile f with
  | Some wb => fileRecords wb
  | None => []
  end.

Definition countyRecordsOf (f : InputFile) : list GeoRecord :=
  match readFile f with
  | Some wb => countyRecords wb
  | None => []
  end.

End Clean.
Export Clean.

(* ===================================================================== *)
(** ** Totals over the state entries *)
(* ===================================================================== *)

Module Totals.


End Totals.
Export Totals.

(* ===================================================================== *)
(** ** The counters of [geoStats] *)
(* ===================================================================== *)

Module Statistics.

(** [s.slice(n)]. *)
Fixpoint dropChars (n : nat) (s : string) : string :=
  match n, s with
  | S n', String _ r => dropChars n' r
  | _, _ => s
  end.

(** [s.replace(pat, rep)] with a string pattern: the first occurrence
    only.  (The replacements used here, [''] and [' '], hold no [$].) *)
Fixpoint replaceFirst (pat rep s : string) : string :=
  if String.prefix pat s then (rep ++ dropChars (String.length pat) s)%string
  else match s with
       | EmptyString => EmptyString
       | String c r => String c (replaceFirst pat rep r)
       end.

(** [file.replace('_data.xlsx', '').replace('_', ' ')]. *)
Definition stateName (file : string) : string :=
  replaceFirst "_" " " (replaceFirst "_data.xlsx" "" file).

(** [geoStats]: its two objects as maps of their own properties. *)
Record GeoStats := {
  totalRecords : Z;
  byGeoLevel : gmap string Z;
  byState : gmap string Z
}.

Definition emptyStats : GeoStats :=
  {| totalRecords := 0; byGeoLevel := ∅; byState := ∅ |}.

(** [o[k] = (o[k] || 0) + 1], for a key that is not inherited from
    [Object.prototype]: the six level names are not. *)
Definition bump (k : string) (o : gmap string Z) : gmap string Z :=
  <[k := default 0 (o !! k) + 1]> o.

(** [o[k] = n] for a number [n]: an own property, except that assigning
    a number to [__proto__] does nothing. *)
Definition setCount (k : string) (n : Z) (o : gmap string Z) : gmap string Z :=
  if String.eqb k "__proto__" then o else <[k := n]> o.

(** The state of the loop: [masterDatabase] and [geoStats]. *)
Definition Run : Type := list GeoRecord * GeoStats.

(** [masterDatabase.push(record); geoStats.totalRecords++;
    geoStats.byGeoLevel[level] = (geoStats.byGeoLevel[level] || 0) + 1]. *)
Definition push (level : string) (r : GeoRecord) (st : Run) : Run :=
  (st.1 ++ [r],
   {| totalRecords := totalRecords st.2 + 1;
      byGeoLevel := bump level (byGeoLevel st.2);
      byState := byState st.2 |}).

(** The callback of [countyData.forEach]: the counter is ['county']. *)
Definition countyRow (st : Run) (row : RawRow) : Run :=
  match countyRecord row with
  | Some r => push "county" r st
  | None => st
  end.

(** The callback of [subcountyData.forEach]: the counter is the
    [geoLevel] the record was given. *)
Definition subcountyRow (st : Run) (row : RawRow) : result Run :=
  o ← subcountyRecord row;
  Ok (match o with
      | Some r => push (geoLevel_string (geoLevel r)) r st
      | None => st
      end).

(** [r.state === stateName]: equal strings. *)
Definition stateIs (name : string) (r : GeoRecord) : bool :=
  match state r with
  | JStr s => String.eqb s name
  | _ => false
  end.

(** [masterDatabase.filter(r => r.state === stateName).length]. *)
Definition recordsOfState (name : string) (db : list GeoRecord) : Z :=
  Z.of_nat (length (filter (fun r => Is_true (stateIs name r)) db)).

(** One iteration of [for (const file of excelFiles)]. *)
Definition fileBody (st : Run) (f : InputFile) : result Run :=
  match readFile f with
  | None => Throw (SourceReadError (fileName f))
  | Some wb =>
      let st1 := match wb !! "County" with
                 | Some rows => foldl countyRow st rows
                 | None => st
                 end in
      st2 ← match wb !! "Subcounty" with
             | Some rows => forEachM subcountyRow rows st1
             | None => Ok st1
             end;
      Ok (st2.1,
          {| totalRecords := totalRecords st2.2;
             byGeoLevel := byGeoLevel st2.2;
             byState := setCount (stateName (fileName f))
                                 (recordsOfState (stateName (fileName f)) st2.1)
                                 (byState st2.2) |})
  end.

(** [masterDatabase] and [geoStats] when the loop ends. *)
Definition run (dir : list InputFile) : result Run :=
  forEachM fileBody (excelFiles dir) ([], emptyStats).

(** The number of records of [db] whose level is named [k]. *)
Definition levelCount (k : string) (db : list GeoRecord) : Z :=
  Z.of_nat (length (filter (fun r => geoLevel_string (geoLevel r) = k) db)).

(** What the counters are, given the array. *)
Definition counted (st : Run) : Prop :=
  totalRecords st.2 = Z.of_nat (length st.1) /\
  forall k, byGeoLevel st.2 !! k =
            if levelCount k st.1 =? 0 then None else Some (levelCount k st.1).

(** The values [geoLevel] takes, in the order of [GeoLevel]. *)
Definition allLevels : list GeoLevel := [county; subcounty; city; town; cdp; tract].

(** [geoStats.byGeoLevel[k] || 0]. *)
Definition levelCounter (g : GeoStats) (l : GeoLevel) : Z :=
  default 0 (byGeoLevel g !! geoLevel_string l).

End Statistics.

(* ===================================================================== *)
(** ** The data explorer: risk level and CSV export *)
(* ===================================================================== *)

Module Explorer.

(** The conditional chain of [analyzeLocation] on
    [location.combinedRate]. *)
Inductive RiskLevel := CRITICAL | HIGH | MODERATE | LOW.

#[global] Instance RiskLevel_eq_dec : EqDecision RiskLevel.
Proof. solve_decision. Defined.

(** [rate > n], the rate read as a number. *)
Definition exceeds (v : RateValue) (n : Z) : bool :=
  num_ltb (Fin (inject_Z n)) (rateNumber v).

Definition riskLevel (r : GeoRecord) : RiskLevel :=
  if exceeds (combinedRate r) 50 then CRITICAL
  else if exceeds (combinedRate r) 40 then HIGH
  else if exceeds (combinedRate r) 30 then MODERATE
  else LOW.

(** The test that selects the urgent recommendations. *)
Definition urgent (r : GeoRecord) : bool := exceeds (combinedRate r) 40.

(** [aliceData.filter(d => d.combinedRate > 50)
      .sort((a, b) => b.combinedRate - a.combinedRate).slice(0, 5)]
    of [generateAIInsights]. *)
Definition highRiskAreas (data : list GeoRecord) : list GeoRecord :=
  take 5 (sortBy placedAfter (filter (fun d => Is_true (exceeds (combinedRate d) 50)) data)).

(** The number the critical alert prints, [None] when there is no
    alert. *)
Definition criticalAlert (data : list GeoRecord) : option nat :=
  let n := length (highRiskAreas data) in
  if (0 <? n)%nat then Some n else None.

(** An object parsed from JSON whose values are [null], booleans,
    integers or strings, as the records of the database are: its own
    properties in the order [Object.keys] lists them. *)
Definition JSObject : Type := list (string * JSValue).

Definition keys (o : JSObject) : list string := o.*1.

Fixpoint own (o : JSObject) (k : string) : option JSValue :=
  match o with
  | [] => None
  | (k', v) :: o' => if String.eqb k' k then Some v else own o' k
  end.

Definition quote : ascii := ascii_of_nat 34.
Definition backslash : ascii := ascii_of_nat 92.
Definition LF : ascii := ascii_of_nat 10.

Definition hex (n : N) : ascii :=
  ascii_of_N (if (n <? 10)%N then 48 + n else 87 + n).

(** One code unit in [JSON.stringify] of a string. *)
Definition quoteChar (c : ascii) : string :=
  let n := code c in
  if (n =? 8)%N then String backslash "b"
  else if (n =? 9)%N then String backslash "t"
  else if (n =? 10)%N then String backslash "n"
  else if (n =? 12)%N then String backslash "f"
  else if (n =? 13)%N then String backslash "r"
  else if (n =? 34)%N then String backslash (String quote "")
  else if (n =? 92)%N then String backslash (String backslash "")
  else if (n <? 32)%N then
    String backslash (String "u" (String "0" (String "0"
      (String (hex (n / 16)) (String (hex (n mod 16)) "")))))
  else String c "".

Fixpoint quoteChars (s : string) : string :=
  match s with
  | EmptyString => EmptyString
  | String c r => (quoteChar c ++ quoteChars r)%string
  end.

(** [JSON.stringify(s)] for a string [s]. *)
Definition quoteJSON (s : string) : string :=
  String quote (quoteChars s ++ String quote "").

(** What [row[h] || ''] is. *)
Inductive Looked :=
| Value (v : JSValue)   (* an own property, or [''] *)
| Method                (* a function of [Object.prototype] *)
| Prototype.            (* [Object.prototype], under [__proto__] *)

Definition lookedUp (row : JSObject) (h : string) : Looked :=
  match own row h with
  | Some v => Value (js_or v (JStr ""))
  | None =>
      if String.eqb h "__proto__" then Prototype
      else if inherited h then Method
      else Value (JStr "")
  end.

(** [JSON.stringify(x)]: [None] is [undefined], the result for a
    function and for [undefined]. *)
Definition stringify (x : Looked) : option string :=
  match x with
  | Value JUndefined => None
  | Value (JStr s) => Some (quoteJSON s)
  | Value v => Some (to_string v)
  | Method => None
  | Prototype => Some "{}"
  end.

(** [join] prints [undefined] as the empty string. *)
Definition fieldOf (row : JSObject) (h : string) : string :=
  default "" (stringify (lookedUp row h)).

Definition line (headers : list string) (row : JSObject) : string :=
  String.concat "," (fieldOf row <$> headers).

(** [convertToCSV(data)]: [Object.keys(data[0])] throws on an empty
    array. *)
Definition convertToCSV (data : list JSObject) : result string :=
  match data with
  | [] => Throw (TypeError "Cannot convert undefined or null to object")
  | first :: _ =>
      let headers := keys first in
      Ok (String.concat (String LF "")
            (String.concat "," headers :: (line headers <$> data)))
  end.

(** The number of occurrences of a character. *)
Fixpoint countChar (c : ascii) (s : string) : nat :=
  match s with
  | EmptyString => 0
  | String c' r => ((if Ascii.eqb c' c then 1 else 0) + countChar c r)%nat
  end.

(** [exportData]: the records that pass the filter read from the page,
    here the predicate [keep], are converted. *)
Definition exportData (keep : JSObject -> bool) (data : list JSObject) : result string :=
  convertToCSV (filter (fun d => Is_true (keep d)) data).

End Explorer.

(* ===================================================================== *)
(** ** Further sample inputs *)
(* ===================================================================== *)

Module MoreSamples.

Import Samples.

(** A Subcounty row whose [Type] is a number. *)
Definition numericType : RawRow :=
  row [("GEO id2", JStr "0100124"); ("Type", JNum 7)].

Definition typedFile : InputFile :=
  {| fileName := "texas_data.xlsx";
     readFile := Some (list_to_map [("Subcounty", [placeAbbreviated; numericType])]) |}.



(** Two records as the explorer holds them: a label of two lines, and
    a count of 0. *)
Definition twoLineLabel : Explorer.JSObject :=
  [("geoID", JStr "01001");
   ("geoDisplayLabel", JStr (String.append "Autauga" (String Explorer.LF "County")));
   ("totalHouseholds", JNum 1000)].

Definition zeroCount : Explorer.JSObject :=
  [("geoID", JStr "01003"); ("totalHouseholds", JNum 0)].

End MoreSamples.

(* ===================================================================== *)
(** ** Strings: padding and matching *)
(* ===================================================================== *)

Section StringFacts.

Lemma length_append (s t : string) :
  String.length (s ++ t) = (String.length s + String.length t)%nat.
Proof. induction s as [|c s IH]; simpl; [reflexivity | now rewrite IH]. Qed.

Lemma zeros_length k : String.length (zeros k) = k.
Proof. induction k; simpl; congruence. Qed.

(** With the one-character fill ["0"] the padding is a run of zeros. *)
Lemma fill_chars_zero k cur :
  cur = EmptyString \/ cur = "0"%string -> fill_chars k cur "0" = zeros k.
Proof.
  revert cur. induction k as [|k IH]; intros cur Hc; simpl; [reflexivity|].
  destruct Hc as [-> | ->]; rewrite IH; auto.
Qed.

Lemma padStart_zeros s :
  padStart 5 "0" s = (zeros (5 - String.length s) ++ s)%string.
Proof.
  unfold padStart. destruct (Nat.leb_spec 5 (String.length s)) as [H|H].
  - replace (5 - String.length s)%nat with 0%nat by lia. reflexivity.
  - rewrite fill_chars_zero by auto. reflexivity.
Qed.

Lemma padStart_length s :
  String.length (padStart 5 "0" s) = Nat.max 5 (String.length s).
Proof. rewrite padStart_zeros, length_append, zeros_length. lia. Qed.

(** The [if / else if] chain is the first-match policy on the rule list. *)
Lemma levelOfType_firstMatch ty :
  levelOfType ty = firstMatch typeRules (toLowerCase ty).
Proof. reflexivity. Qed.

End StringFacts.

(* ===================================================================== *)
(** ** The normalisers *)
(* ===================================================================== *)

Section NormalizerFacts.

Lemma countyRecord_emits row :
  truthy (cell row "GEO id2") = true -> is_Some (countyRecord row).
Proof. intros H. unfold countyRecord. rewrite H. eauto. Qed.

Lemma countyRecord_skips row :
  truthy (cell row "GEO id2") = false -> countyRecord row = None.
Proof. intros H. unfold countyRecord. now rewrite H. Qed.

Lemma calcRates_guard total poverty alice :
  total <= 0 ->
  calcRates total poverty alice =
    {| r_poverty := RateNum0; r_alice := RateNum0; r_combined := RateNum0 |}.
Proof.
  intros H. unfold calcRates.
  destruct (Z.ltb_spec 0 total); [lia | reflexivity].
Qed.

Lemma countyRecord_rates row r :
  countyRecord row = Some r ->
  povertyRate r = r_poverty (calcRates (totalHouseholds r) (povertyHouseholds r) (aliceHouseholds r)) /\
  aliceRate r = r_alice (calcRates (totalHouseholds r) (povertyHouseholds r) (aliceHouseholds r)) /\
  combinedRate r = r_combined (calcRates (totalHouseholds r) (povertyHouseholds r) (aliceHouseholds r)).
Proof.
  unfold countyRecord. destruct (truthy _); [|discriminate].
  intros [= <-]. simpl. auto.
Qed.

Lemma subcountyRecord_rates row r :
  subcountyRecord row = Ok (Some r) ->
  povertyRate r = r_poverty (calcRates (totalHouseholds r) (povertyHouseholds r) (aliceHouseholds r)) /\
  aliceRate r = r_alice (calcRates (totalHouseholds r) (povertyHouseholds r) (aliceHouseholds r)) /\
  combinedRate r = r_combined (calcRates (totalHouseholds r) (povertyHouseholds r) (aliceHouseholds r)).
Proof.
  unfold subcountyRecord. destruct (truthy (cell row "GEO id2")); [|discriminate].
  destruct (subcountyLevel _ _) as [lvl|e]; simpl; [|discriminate].
  intros [= <-]. simpl. auto.
Qed.

End NormalizerFacts.

Section NormalizerProperties.

Import Samples.

(** C5, as stated, fails: a County-sheet row whose identifier has six
    digits is emitted as a county-level record whose [geoID] has six
    characters, [padStart] never shortening its receiver. *)
Lemma county_geoID_longer_than_5 :
  exists r, countyRecord sixDigits = Some r /\
            geoLevel r = county /\
            geoID r = "123456"%string /\
            String.length (geoID r) <> 5%nat.
Proof. eexists. split; [vm_compute; reflexivity|]. simpl. repeat split; auto. Qed.

(** C5, amended: every County-sheet row with a truthy [GEO id2] is emitted
    as a county-level record whose [geoID] is the identifier's string with
    [5 - length] zeros in front, so of length [max 5 length]: exactly 5
    when the identifier has at most 5 characters; the raw identifier 1001
    becomes "01001". *)
Theorem county_geoID_padded (row : RawRow) :
  truthy (cell row "GEO id2") = true ->
  exists r, countyRecord row = Some r /\
    let id := to_string (cell row "GEO id2") in
    geoLevel r = county /\
    geoID r = (zeros (5 - String.length id) ++ id)%string /\
    String.length (geoID r) = Nat.max 5 (String.length id) /\
    ((String.length id <= 5)%nat -> String.length (geoID r) = 5%nat) /\
    (geoID <$> countyRecord autauga = Some "01001"%string).
Proof.
  intros H. unfold countyRecord. rewrite H. eexists. split; [reflexivity|].
  simpl. split; [reflexivity|]. split; [apply padStart_zeros|].
  split; [apply padStart_length|]. split.
  - intros Hle. rewrite padStart_length. lia.
  - vm_compute. reflexivity.
Qed.

Lemma county_geoID_padded_witness :
  exists r, countyRecord autauga = Some r /\ String.length (geoID r) = 5%nat.
Proof.
  destruct (county_geoID_padded autauga) as (r & Hr & _ & _ & _ & Hlen & _).
  - vm_compute. reflexivity.
  - exists r. split; [exact Hr|]. apply Hlen. vm_compute. lia.
Defined.

(** C8: a record emitted from either sheet with [totalHouseholds = 0]
    has the number 0 in its three rate fields: the assignments under
    [if (record.totalHouseholds > 0)], the only divisions, are not run, so
    no rate is a [toFixed] string (which is where a NaN would show). *)
Theorem zero_households_zero_rates (row : RawRow) (r : GeoRecord) :
  countyRecord row = Some r \/ subcountyRecord row = Ok (Some r) ->
  totalHouseholds r = 0 ->
  povertyRate r = RateNum0 /\ aliceRate r = RateNum0 /\ combinedRate r = RateNum0.
Proof.
  intros Hemit Hzero.
  assert (Hrates :
    povertyRate r = r_poverty (calcRates (totalHouseholds r) (povertyHouseholds r) (aliceHouseholds r)) /\
    aliceRate r = r_alice (calcRates (totalHouseholds r) (povertyHouseholds r) (aliceHouseholds r)) /\
    combinedRate r = r_combined (calcRates (totalHouseholds r) (povertyHouseholds r) (aliceHouseholds r))).
  { destruct Hemit as [Hc | Hs];
      [eapply countyRecord_rates | eapply subcountyRecord_rates]; eassumption. }
  rewrite calcRates_guard in Hrates by lia. exact Hrates.
Qed.

Lemma zero_households_zero_rates_witness :
  exists r, countyRecord emptyCounty = Some r /\
            povertyRate r = RateNum0 /\ aliceRate r = RateNum0 /\ combinedRate r = RateNum0.
Proof.
  destruct (countyRecord emptyCounty) as [r|] eqn:E; [|vm_compute in E; discriminate].
  exists r. split; [reflexivity|].
  apply (zero_households_zero_rates emptyCounty r); [left; exact E|].
  vm_compute in E. injection E as <-. reflexivity.
Defined.

(** C9, the code at the failing input: the column [Poverty HH Black] is
    present with value 0 and the record holds [null] for it, exactly like
    the column [Poverty HH Hispanic], which the row does not have; a
    present non-zero count is carried over. *)
Theorem zero_demographic_becomes_null :
  cell emptyCounty "Poverty HH Black" = JNum 0 /\
  emptyCounty !! "Poverty HH Hispanic" = None /\
  exists r, countyRecord emptyCounty = Some r /\
            povertyHH_Black r = JNull /\
            povertyHH_Hispanic r = JNull /\
            aliceHH_White r = JNum 7.
Proof.
  split; [vm_compute; reflexivity|]. split; [vm_compute; reflexivity|].
  eexists. split; [vm_compute; reflexivity|]. simpl. auto.
Qed.

(** C3, as stated, fails: the lower-cased "census designated place"
    contains none of "city", "town", "cdp", "tract", so the row is the
    generic [subcounty], not [cdp]. *)
Lemma spelled_out_place_is_not_cdp :
  cell placeSpelledOut "Type" = JStr "Census Designated Place" /\
  exists r, subcountyRecord placeSpelledOut = Ok (Some r) /\
            geoLevel r = subcounty /\ geoLevel r <> cdp.
Proof.
  split; [vm_compute; reflexivity|].
  eexists. split; [vm_compute; reflexivity|]. simpl. split; [reflexivity | discriminate].
Qed.

(** C3, amended: every Subcounty-sheet row with a truthy [GEO id2] whose
    [Type] is a string or missing is emitted, with the identifier's
    string, unpadded, as [geoID], and with [geoLevel]: for a non-empty
    [Type], the first of the rules city, town, cdp, tract whose word occurs
    in the lower-cased [Type], [subcounty] when none does; for a missing or
    empty [Type], [tract] when the identifier has exactly 11 characters and
    [subcounty] otherwise.  [Type = "CDP"] gives [cdp], while
    [Type = "Census Designated Place"] gives [subcounty]. *)
Theorem subcounty_level_policy (row : RawRow) :
  truthy (cell row "GEO id2") = true ->
  (truthy (cell row "Type") = false \/ exists s, cell row "Type" = JStr s) ->
  exists r, subcountyRecord row = Ok (Some r) /\
    geoID r = to_string (cell row "GEO id2") /\
    (forall s, cell row "Type" = JStr s -> s <> EmptyString ->
               geoLevel r = firstMatch typeRules (toLowerCase s)) /\
    (truthy (cell row "Type") = false ->
       (String.length (geoID r) = 11%nat -> geoLevel r = tract) /\
       (String.length (geoID r) <> 11%nat -> geoLevel r = subcounty)) /\
    (exists r1, subcountyRecord placeAbbreviated = Ok (Some r1) /\ geoLevel r1 = cdp) /\
    (exists r2, subcountyRecord placeSpelledOut = Ok (Some r2) /\ geoLevel r2 = subcounty) /\
    (exists r3, subcountyRecord tractNoType = Ok (Some r3) /\ geoLevel r3 = tract) /\
    (exists r4, subcountyRecord plainNoType = Ok (Some r4) /\ geoLevel r4 = subcounty).
Proof.
  intros Hid Hty. unfold subcountyRecord. rewrite Hid.
  assert (Hlvl : exists lvl,
    subcountyLevel (cell row "Type") (to_string (cell row "GEO id2")) = Ok lvl /\
    (forall s, cell row "Type" = JStr s -> s <> EmptyString ->
               lvl = firstMatch typeRules (toLowerCase s)) /\
    (truthy (cell row "Type") = false ->
       lvl = if (String.length (to_string (cell row "GEO id2")) =? 11)%nat
             then tract else subcounty)).
  { unfold subcountyLevel.
    destruct (truthy (cell row "Type")) eqn:Et.
    - destruct Hty as [Hf | [s Hs]]; [discriminate|]. rewrite Hs in *.
      eexists. split; [reflexivity|]. simpl. split; [|discriminate].
      intros s' [= <-] _. apply levelOfType_firstMatch.
    - eexists. split; [reflexivity|]. simpl. split; [|reflexivity].
      intros s Hs Hne. rewrite Hs in Et. simpl in Et.
      destruct s; [congruence | discriminate]. }
  destruct Hlvl as (lvl & -> & Hstr & Hnone). simpl.
  eexists. split; [reflexivity|]. simpl.
  split; [reflexivity|]. split; [exact Hstr|]. split.
  - intros Hf. rewrite (Hnone Hf). split.
    + intros ->. reflexivity.
    + intros Hne. destruct (Nat.eqb_spec (String.length (to_string (cell row "GEO id2"))) 11); [contradiction | reflexivity].
  - repeat split; eexists; (split; [vm_compute; reflexivity | reflexivity]).
Qed.

Lemma subcounty_level_policy_witness :
  exists r, subcountyRecord placeAbbreviated = Ok (Some r) /\
            geoLevel r = firstMatch typeRules "cdp".
Proof.
  destruct (subcounty_level_policy placeAbbreviated) as (r & Hr & _ & Hstr & _).
  - vm_compute. reflexivity.
  - right. eexists. vm_compute. reflexivity.
  - exists r. split; [exact Hr|].
    apply (Hstr "CDP"%string); [vm_compute; reflexivity | discriminate].
Defined.

End NormalizerProperties.

(* ===================================================================== *)
(** ** Stable insertion sort *)
(* ===================================================================== *)

Section SortFacts.

Context {A : Type} (after : A -> A -> bool) (P : A -> Prop).

(** [after] is a strict weak order on the elements that satisfy [P]. *)
Hypothesis after_asym : forall x y, P x -> P y -> after x y = true -> after y x = false.
Hypothesis after_negtrans : forall x y z, P x -> P y -> P z ->
  after x y = false -> after y z = false -> after x z = false.

Local Abbreviation notAfter := (notAfter after).
Local Abbreviation tie := (tie after).

Lemma insertBy_perm x l : insertBy after x l ≡ₚ x :: l.
Proof.
  induction l as [|y l IH]; simpl; [reflexivity|].
  destruct (after x y); [|reflexivity].
  rewrite IH. apply Permutation_swap.
Qed.

Lemma sortBy_perm l : sortBy after l ≡ₚ l.
Proof.
  induction l as [|x l IH]; simpl; [reflexivity|].
  unfold sortBy in *. simpl. rewrite insertBy_perm. now rewrite IH.
Qed.

Lemma sortBy_Forall l : Forall P l -> Forall P (sortBy after l).
Proof. intros H. now rewrite sortBy_perm. Qed.

Lemma insertBy_sorted x l :
  P x -> Forall P l ->
  StronglySorted notAfter l -> StronglySorted notAfter (insertBy after x l).
Proof.
  intros Px HP Hs. induction Hs as [|y l Hs IH Hy]; simpl.
  - repeat constructor.
  - apply Forall_cons in HP as [Py HP].
    destruct (after x y) eqn:E.
    + constructor; [apply IH, HP|].
      rewrite insertBy_perm. constructor; [|exact Hy].
      unfold Reference.notAfter. apply after_asym; assumption.
    + constructor; [constructor; assumption|].
      constructor; [exact E|].
      rewrite Forall_forall in Hy, HP. apply Forall_forall. intros z Hz.
      apply (after_negtrans x y z); auto. apply Hy, Hz.
Qed.

Lemma sortBy_sorted l : Forall P l -> StronglySorted notAfter (sortBy after l).
Proof.
  induction l as [|x l IH]; intros HP; [constructor|].
  apply Forall_cons in HP as [Px HP]. unfold sortBy. simpl.
  apply insertBy_sorted; [exact Px | apply sortBy_Forall, HP | apply IH, HP].
Qed.

(** Inserting [a] puts it in front of the elements tied with it. *)
Lemma insertBy_tie x a l :
  P x -> P a -> Forall P l ->
  filter (fun y => Is_true (tie x y)) (insertBy after a l) =
  if tie x a then a :: filter (fun y => Is_true (tie x y)) l
  else filter (fun y => Is_true (tie x y)) l.
Proof.
  intros Px Pa HP. induction l as [|y l IH]; simpl.
  - rewrite filter_cons, filter_nil. destruct (tie x a); simpl; reflexivity.
  - apply Forall_cons in HP as [Py HP]. specialize (IH HP).
    destruct (after a y) eqn:E.
    + rewrite !filter_cons, IH.
      destruct (tie x a) eqn:Eta; [|reflexivity].
      assert (tie x y = false) as ->; [|reflexivity].
      unfold tie in *. apply andb_true_iff in Eta as [H1 H2].
      apply negb_true_iff in H1, H2.
      destruct (after x y) eqn:Exy; [reflexivity|].
      rewrite (after_negtrans a x y Pa Px Py H2 Exy) in E. discriminate.
    + rewrite (filter_cons _ a). destruct (tie x a); simpl; reflexivity.
Qed.

(** Stability: the elements tied with [x] keep their original order. *)
Lemma sortBy_stable x l :
  P x -> Forall P l ->
  filter (fun y => Is_true (tie x y)) (sortBy after l) =
  filter (fun y => Is_true (tie x y)) l.
Proof.
  intros Px HP. induction l as [|a l IH]; [reflexivity|].
  apply Forall_cons in HP as [Pa HP]. unfold sortBy in *. simpl.
  rewrite insertBy_tie; [|assumption|assumption|apply sortBy_Forall, HP].
  rewrite filter_cons, (IH HP). destruct (tie x a); simpl; reflexivity.
Qed.

End SortFacts.

(* ===================================================================== *)
(** ** The order of numbers *)
(* ===================================================================== *)

Section NumberOrder.

Lemma Qle_bool_false p q : Qle_bool p q = false <-> (q < p)%Q.
Proof.
  split.
  - intros H. apply Qnot_le_lt. rewrite <- Qle_bool_iff. congruence.
  - intros H. destruct (Qle_bool p q) eqn:E; [|reflexivity].
    apply Qle_bool_iff in E. exfalso. exact (Qlt_not_le _ _ H E).
Qed.

Lemma num_ltb_Fin p q : num_ltb (Fin p) (Fin q) = true <-> (p < q)%Q.
Proof. simpl. rewrite negb_true_iff. apply Qle_bool_false. Qed.

Lemma num_ltb_Fin_false p q : num_ltb (Fin p) (Fin q) = false <-> (q <= p)%Q.
Proof. simpl. rewrite negb_false_iff. apply Qle_bool_iff. Qed.

Lemma num_ltb_asym x y : num_ltb x y = true -> num_ltb y x = false.
Proof.
  destruct x as [|sx|p], y as [|sy|q]; simpl; try congruence.
  - destruct sx, sy; simpl; congruence.
  - intros ->. reflexivity.
  - intros H. apply negb_true_iff in H. now rewrite H.
  - rewrite negb_true_iff, negb_false_iff, Qle_bool_false, Qle_bool_iff.
    apply Qlt_le_weak.
Qed.

Lemma num_ltb_negtrans x y z :
  x <> NaN -> y <> NaN -> z <> NaN ->
  num_ltb x y = false -> num_ltb y z = false -> num_ltb x z = false.
Proof.
  intros Hx Hy Hz.
  destruct x as [|sx|p]; [congruence| |]; destruct y as [|sy|q]; try congruence;
    destruct z as [|sz|r]; try congruence; simpl;
    try (destruct sx); try (destruct sy); try (destruct sz); simpl; try congruence.
  rewrite !negb_false_iff, !Qle_bool_iff. intros H1 H2. eapply Qle_trans; eassumption.
Qed.

Lemma positive_not_NaN x : num_ltb (Fin 0) x = true -> x <> NaN.
Proof. intros H ->. discriminate. Qed.

End NumberOrder.

(* ===================================================================== *)
(** ** Rounding to binary64 and the rate strings *)
(* ===================================================================== *)

Section FloatFacts.

Local Open Scope Q_scope.

Lemma pow2_pos e : 0 < pow2 e.
Proof. apply Qpower_0_lt. reflexivity. Qed.

Lemma pow2_add a b : pow2 (a + b) == pow2 a * pow2 b.
Proof. apply Qpower_plus. discriminate. Qed.

Lemma pow2_lt a b : (a < b)%Z -> pow2 a < pow2 b.
Proof. intros H. apply Qpower_lt_compat_l; [exact H | reflexivity]. Qed.

Lemma pow2_le a b : (a <= b)%Z -> pow2 a <= pow2 b.
Proof. intros H. apply Qpower_le_compat_l; [exact H | discriminate]. Qed.

Lemma pow2_lt_inv a b : pow2 a < pow2 b -> (a < b)%Z.
Proof. intros H. apply (Qpower_lt_compat_l_inv 2); [exact H | reflexivity]. Qed.

Lemma pow2_inject k : (0 <= k)%Z -> pow2 k == inject_Z (2 ^ k).
Proof. intros H. unfold pow2. now rewrite Zpower_Qpower. Qed.

(** A positive rational and its numerator and denominator. *)
Lemma Q_num_den q : q * inject_Z (Zpos (Qden q)) == inject_Z (Qnum q).
Proof.
  destruct q as [n d]. unfold Qeq, Qmult, inject_Z. simpl. rewrite Pos.mul_1_r. ring.
Qed.

Lemma ilog2_spec q : 0 < q -> pow2 (ilog2 q) <= q /\ q < pow2 (ilog2 q + 1).
Proof.
  intros Hq.
  assert (HN : (0 < Qnum q)%Z).
  { destruct q as [n d]. unfold Qlt in Hq. simpl in *. lia. }
  pose proof (Q_num_den q) as Hnd.
  set (N := Qnum q) in *. set (D := Zpos (Qden q)) in *.
  assert (HD : (0 < D)%Z) by (subst D; lia).
  destruct (Z.log2_spec N HN) as [Ha1 Ha2].
  destruct (Z.log2_spec D HD) as [Hb1 Hb2].
  pose proof (Z.log2_nonneg N) as Ha0. pose proof (Z.log2_nonneg D) as Hb0.
  set (a := Z.log2 N) in *. set (b := Z.log2 D) in *.
  assert (Qa1 : pow2 a <= inject_Z N) by (rewrite pow2_inject, <- Zle_Qle; lia).
  assert (Qa2 : inject_Z N < pow2 (a + 1))
    by (rewrite pow2_inject, <- Zlt_Qlt; [exact Ha2 | lia]).
  assert (Qb1 : pow2 b <= inject_Z D) by (rewrite pow2_inject, <- Zle_Qle; lia).
  assert (Qb2 : inject_Z D < pow2 (b + 1))
    by (rewrite pow2_inject, <- Zlt_Qlt; [exact Hb2 | lia]).
  assert (QD : 0 < inject_Z D) by (rewrite Zlt_Qlt in HD; exact HD).
  unfold ilog2. fold N D a b.
  destruct (Qle_bool (pow2 (a - b)) q) eqn:E.
  - split; [now apply Qle_bool_iff|].
    apply (Qmult_lt_r _ _ (inject_Z D) QD). rewrite Hnd.
    apply Qlt_le_trans with (pow2 (a + 1)); [exact Qa2|].
    replace (a + 1)%Z with ((a - b + 1) + b)%Z by lia. rewrite pow2_add.
    apply Qmult_le_l; [apply pow2_pos | exact Qb1].
  - apply Qle_bool_false in E. split.
    + apply (Qmult_le_r _ _ (inject_Z D) QD). rewrite Hnd.
      apply Qle_trans with (pow2 a); [|exact Qa1].
      replace a with ((a - b - 1) + (b + 1))%Z at 2 by lia. rewrite pow2_add.
      apply Qmult_le_l; [apply pow2_pos | apply Qlt_le_weak, Qb2].
    + replace (a - b - 1 + 1)%Z with (a - b)%Z by lia. exact E.
Qed.

Lemma round_half_even_spec s :
  s - (1 # 2) <= inject_Z (round_half_even s) /\
  inject_Z (round_half_even s) <= s + (1 # 2).
Proof.
  unfold round_half_even.
  pose proof (Qfloor_le s) as Hlo. pose proof (Qlt_floor s) as Hhi.
  rewrite inject_Z_plus in Hhi. change (inject_Z 1) with 1 in Hhi.
  destruct (s - inject_Z (Qfloor s) ?= 1 # 2) eqn:E.
  - apply Qeq_alt in E.
    destruct (Z.even (Qfloor s)); rewrite ?inject_Z_plus;
      change (inject_Z 1) with 1; split; lra.
  - apply Qlt_alt in E. split; lra.
  - apply Qgt_alt in E. rewrite inject_Z_plus. change (inject_Z 1) with 1. split; lra.
Qed.

Lemma Z_of_Q_lower (m c : Z) : inject_Z c - (1 # 2) <= inject_Z m -> (c <= m)%Z.
Proof.
  intros H. destruct (Z.le_gt_cases c m) as [Hle|Hgt]; [exact Hle|].
  exfalso. assert (Hm : (m + 1 <= c)%Z) by lia.
  rewrite Zle_Qle, inject_Z_plus in Hm. change (inject_Z 1) with 1 in Hm. lra.
Qed.

Lemma Z_of_Q_upper (m c : Z) : inject_Z m < inject_Z c + (1 # 2) -> (m <= c)%Z.
Proof.
  intros H. destruct (Z.le_gt_cases m c) as [Hle|Hgt]; [exact Hle|].
  exfalso. assert (Hm : (c + 1 <= m)%Z) by lia.
  rewrite Zle_Qle, inject_Z_plus in Hm. change (inject_Z 1) with 1 in Hm. lra.
Qed.

(** Rounding a result in the normal range: a finite double within the
    relative error 2^-53. *)
Lemma b64_round_pos_normal q :
  pow2 (-1022) <= q -> q < pow2 1023 ->
  exists v, b64_round_pos q = Fin v /\
            q - q * pow2 (-53) <= v /\ v <= q + q * pow2 (-53).
Proof.
  intros Hlo Hhi.
  assert (Hq : 0 < q) by (eapply Qlt_le_trans; [apply (pow2_pos (-1022)) | exact Hlo]).
  destruct (ilog2_spec q Hq) as [Hk1 Hk2].
  unfold b64_round_pos. set (k := ilog2 q) in *.
  assert (Hkl : (-1022 <= k)%Z).
  { assert (H : pow2 (-1022) < pow2 (k + 1)) by (eapply Qle_lt_trans; eassumption).
    apply pow2_lt_inv in H. lia. }
  assert (Hku : (k < 1023)%Z).
  { apply pow2_lt_inv. eapply Qle_lt_trans; eassumption. }
  rewrite Z.max_l by lia.
  set (e := (k - 52)%Z). set (P := pow2 e).
  assert (HP : 0 < P) by apply pow2_pos.
  set (s := q / P).
  assert (Hs : s * P == q) by (unfold s; field; lra).
  assert (Hs1 : pow2 52 <= s).
  { apply (Qmult_le_r _ _ P HP). rewrite Hs. unfold P. rewrite <- pow2_add.
    replace (52 + e)%Z with k by (unfold e; lia). exact Hk1. }
  assert (Hs2 : s < pow2 53).
  { apply (Qmult_lt_r _ _ P HP). rewrite Hs. unfold P. rewrite <- pow2_add.
    replace (53 + e)%Z with (k + 1)%Z by (unfold e; lia). exact Hk2. }
  destruct (round_half_even_spec s) as [Hm1 Hm2].
  set (m := round_half_even s) in *.
  rewrite pow2_inject in Hs1, Hs2 by lia.
  assert (Hm52 : (2 ^ 52 <= m)%Z) by (apply Z_of_Q_lower; lra).
  assert (Hm53 : (m <= 2 ^ 53)%Z) by (apply Z_of_Q_upper; lra).
  assert (Hm0 : (m =? 0)%Z = false) by (apply Z.eqb_neq; lia).
  assert (Hlog : (Z.log2 m <= 53)%Z).
  { change 53%Z with (Z.log2 (2 ^ 53)). apply Z.log2_le_mono. exact Hm53. }
  rewrite Hm0. destruct (Z.leb_spec 1024 (Z.log2 m + e)) as [Hov|_]; [unfold e in Hov; lia|].
  eexists. split; [reflexivity|]. rewrite Qred_correct.
  assert (Hhalf : P * (1 # 2) <= q * pow2 (-53)).
  { change (1 # 2) with (pow2 (-1)). unfold P. rewrite <- pow2_add.
    replace (e + -1)%Z with (k + -53)%Z by (unfold e; lia). rewrite pow2_add.
    apply Qmult_le_compat_r; [exact Hk1 | apply Qlt_le_weak, pow2_pos]. }
  pose proof (Qmult_le_compat_r _ _ P Hm1 (Qlt_le_weak _ _ HP)) as H1.
  pose proof (Qmult_le_compat_r _ _ P Hm2 (Qlt_le_weak _ _ HP)) as H2.
  split; lra.
Qed.

Lemma b64_round_normal q :
  pow2 (-1022) <= q -> q < pow2 1023 ->
  exists v, b64_round q = Fin v /\
            q - q * pow2 (-53) <= v /\ v <= q + q * pow2 (-53).
Proof.
  intros Hlo Hhi.
  assert (Hq : 0 < q) by (eapply Qlt_le_trans; [apply (pow2_pos (-1022)) | exact Hlo]).
  unfold b64_round. apply Qgt_alt in Hq. rewrite Hq.
  now apply b64_round_pos_normal.
Qed.

(** The rate string of non-negative counts: the tenths [n] printed are
    within half a tenth of [100 * num / total]. *)
Lemma percent_nearest (p t : Z) :
  (0 <= p <= 10 ^ 12)%Z -> (0 < t < 2 ^ 53)%Z ->
  exists n, percent p t = FxDec false n /\
            (2 * Z.abs (n * t - 1000 * p) <= t)%Z.
Proof.
  intros [Hp0 Hp] [Ht0 Ht]. unfold percent.
  assert (HT1 : 1 <= inject_Z t) by (change 1 with (inject_Z 1); rewrite <- Zle_Qle; lia).
  assert (HT2 : inject_Z t < inject_Z (2 ^ 53)) by (rewrite <- Zlt_Qlt; exact Ht).
  assert (HP0 : 0 <= inject_Z p) by (change 0 with (inject_Z 0); rewrite <- Zle_Qle; lia).
  assert (HP : inject_Z p <= inject_Z (10 ^ 12)) by (rewrite <- Zle_Qle; exact Hp).
  change (inject_Z (2 ^ 53)) with 9007199254740992 in HT2.
  change (inject_Z (10 ^ 12)) with 1000000000000 in HP.
  set (T := inject_Z t) in *. set (P := inject_Z p) in *.
  assert (HTne : Qeq_bool T 0 = false).
  { destruct (Qeq_bool T 0) eqn:E; [|reflexivity]. apply Qeq_bool_iff in E. lra. }
  unfold js_div. rewrite HTne.
  destruct (Z.eq_dec p 0%Z) as [Hz | Hnz].
  - exists 0%Z. subst p. split; [|lia].
    assert (E : b64_round (P / T) = Fin 0).
    { unfold b64_round. assert (H : P / T == 0) by (unfold P; field; lra).
      apply Qeq_alt in H. now rewrite H. }
    rewrite E. reflexivity.
  - assert (HP1 : 1 <= P).
    { unfold P. change 1 with (inject_Z 1). rewrite <- Zle_Qle. lia. }
    set (x := P / T).
    assert (Hx : x * T == P) by (unfold x; field; lra).
    assert (Hxlo : pow2 (-53) <= x).
    { apply (Qmult_le_r _ _ T); [lra|]. rewrite Hx.
      change (pow2 (-53)) with (1 # 9007199254740992). lra. }
    assert (Hxhi : x < pow2 40).
    { apply (Qmult_lt_r _ _ T); [lra|]. rewrite Hx.
      change (pow2 40) with 1099511627776. lra. }
    destruct (b64_round_normal x) as (v1 & E1 & Hv1lo & Hv1hi).
    { eapply Qle_trans; [apply (pow2_le (-1022) (-53)); lia | exact Hxlo]. }
    { eapply Qlt_le_trans; [exact Hxhi | apply pow2_le; lia]. }
    rewrite E1. unfold js_mul.
    change (pow2 (-53)) with (1 # 9007199254740992) in *.
    change (pow2 40) with 1099511627776 in Hxhi.
    destruct (b64_round_normal (v1 * 100)) as (v2 & E2 & Hv2lo & Hv2hi).
    { eapply Qle_trans; [apply (pow2_le (-1022) (-54)); lia |].
      change (pow2 (-54)) with (1 # 18014398509481984). lra. }
    { eapply Qlt_le_trans; [|apply (pow2_le 48 1023); lia].
      change (pow2 48) with 281474976710656. lra. }
    rewrite E2. change (pow2 (-53)) with (1 # 9007199254740992) in *.
    assert (Hv2pos : 0 < v2) by lra.
    unfold toFixed1.
    assert (Habs : Qabs v2 == v2) by (apply Qabs_pos; lra).
    assert (Hbig : Qle_bool (inject_Z (10 ^ 21)) (Qabs v2) = false).
    { apply Qle_bool_false. rewrite Habs.
      change (inject_Z (10 ^ 21)) with 1000000000000000000000. lra. }
    assert (Hneg : is_neg v2 = false).
    { unfold is_neg. assert (H : Qle_bool v2 0 = false) by (apply Qle_bool_false; lra).
      now rewrite H. }
    rewrite Hbig, Hneg. eexists. split; [reflexivity|].
    pose proof (Qfloor_le (Qabs v2 * 10 + (1 # 2))) as Hn1.
    pose proof (Qlt_floor (Qabs v2 * 10 + (1 # 2))) as Hn2.
    set (n := Qfloor (Qabs v2 * 10 + (1 # 2))) in *.
    rewrite inject_Z_plus in Hn2. change (inject_Z 1) with 1 in Hn2.
    rewrite Habs in Hn1, Hn2.
    assert (HT0 : 0 <= T) by lra.
    pose proof (Qmult_le_compat_r _ _ T Hv1lo HT0) as A1.
    pose proof (Qmult_le_compat_r _ _ T Hv1hi HT0) as A2.
    pose proof (Qmult_le_compat_r _ _ T Hv2lo HT0) as B1.
    pose proof (Qmult_le_compat_r _ _ T Hv2hi HT0) as B2.
    pose proof (Qmult_le_compat_r _ _ T Hn1 HT0) as C1.
    assert (C2 : (v2 * 10 + (1 # 2)) * T < (inject_Z n + 1) * T)
      by (apply Qmult_lt_r; [lra | exact Hn2]).
    assert (Hup : inject_Z (2 * (n * t)) < inject_Z (t + 1 + 2 * (1000 * p))).
    { rewrite !inject_Z_plus, !inject_Z_mult.
      fold T P. change (inject_Z 2) with 2. change (inject_Z 1000) with 1000.
      change (inject_Z 1) with 1. lra. }
    assert (Hdn : inject_Z (2 * (1000 * p)) < inject_Z (t + 1 + 2 * (n * t))).
    { rewrite !inject_Z_plus, !inject_Z_mult.
      fold T P. change (inject_Z 2) with 2. change (inject_Z 1000) with 1000.
      change (inject_Z 1) with 1. lra. }
    rewrite <- Zlt_Qlt in Hup, Hdn. lia.
Qed.

End FloatFacts.

(* ===================================================================== *)
(** ** The fold of createAggregatedStats *)
(* ===================================================================== *)

Section FoldFacts.

Lemma countiesOf_cons r db :
  countiesOf (r :: db) =
  if is_county (geoLevel r) then r :: countiesOf db else countiesOf db.
Proof.
  unfold countiesOf. rewrite filter_cons.
  destruct (is_county (geoLevel r)); simpl; reflexivity.
Qed.

Lemma countiesOf_idemp db : countiesOf (countiesOf db) = countiesOf db.
Proof.
  induction db as [|r db IH]; [reflexivity|].
  rewrite countiesOf_cons. destruct (is_county (geoLevel r)) eqn:E; [|exact IH].
  rewrite countiesOf_cons, E, IH. reflexivity.
Qed.



Lemma entryFor_total m k :
  inherited k = false -> exists e, entryFor m k = Ok e.
Proof. intros H. unfold entryFor. rewrite H. destruct (m !! k); eauto. Qed.


Lemma accumulate_other acc r :
  is_county (geoLevel r) = false -> accumulate acc r = Ok acc.
Proof. intros H. unfold accumulate. now rewrite H. Qed.

Lemma accumulate_county acc r :
  is_county (geoLevel r) = true ->
  accumulate acc r =
  match entryFor (s_byState acc) (stateKey r) with
  | Ok e =>
      Ok {| s_total := s_total acc + totalHouseholds r;
            s_poverty := s_poverty acc + povertyHouseholds r;
            s_alice := s_alice acc + aliceHouseholds r;
            s_above := s_above acc + aboveAliceHouseholds r;
            s_byState := <[stateKey r := addToEntry e r]> (s_byState acc) |}
  | Throw err => Throw err
  end.
Proof. intros H. unfold accumulate. rewrite H. reflexivity. Qed.

Lemma forEachM_cons {S A} (f : S -> A -> result S) x l s :
  forEachM f (x :: l) s =
  match f s x with
  | Ok s' => forEachM f l s'
  | Throw e => Throw e
  end.
Proof. reflexivity. Qed.

(** The loop returns unless a county-level record carries a state name
    that [Object.prototype] defines. *)
Lemma forEachM_accumulate_total db : forall acc,
  Forall (fun r => is_county (geoLevel r) = true -> inherited (stateKey r) = false) db ->
  exists acc', forEachM accumulate db acc = Ok acc'.
Proof.
  induction db as [|r db IH]; intros acc H; [simpl; eauto|].
  apply Forall_cons in H as [Hr H]. rewrite forEachM_cons.
  destruct (is_county (geoLevel r)) eqn:E.
  - rewrite accumulate_county by exact E.
    destruct (entryFor_total (s_byState acc) (stateKey r) (Hr eq_refl)) as [e ->].
    apply IH, H.
  - rewrite accumulate_other by exact E. apply IH, H.
Qed.




Lemma aggregate_Ok db agg :
  aggregate db = Ok agg ->
  exists acc, forEachM accumulate db noSums = Ok acc /\
    agg = {| national :=
               {| National.totalHouseholds := s_total acc;
                  National.povertyHouseholds := s_poverty acc;
                  National.aliceHouseholds := s_alice acc;
                  National.aboveAliceHouseholds := s_above acc;
                  National.povertyRate := percent (s_poverty acc) (s_total acc);
                  National.aliceRate := percent (s_alice acc) (s_total acc);
                  National.combinedRate := percent (s_poverty acc + s_alice acc) (s_total acc) |};
             byState := s_byState acc;
             highestCombinedRate := extreme <$> take 10 (sortedByRate db);
             lowestCombinedRate := extreme <$> reverse (sliceLast 10 (sortedByRate db)) |}.
Proof.
  unfold aggregate. destruct (forEachM accumulate db noSums) as [acc|e]; simpl.
  - intros [= <-]. eauto.
  - discriminate.
Qed.


End FoldFacts.

Section AggregatorProperties.

Import Samples.

Lemma aggregate_returns db :
  plainStates db -> exists agg, aggregate db = Ok agg.
Proof.
  intros H. unfold aggregate.
  destruct (forEachM_accumulate_total db noSums H) as [acc ->]. simpl. eauto.
Qed.



Lemma rankable_spec r :
  rankable r = true <->
  geoLevel r = county /\ num_ltb (Fin 0) (rateOf r) = true.
Proof.
  unfold rankable, rateOf. rewrite andb_true_iff.
  destruct (geoLevel r); simpl; intuition congruence.
Qed.

Lemma rankable_not_NaN r : rankable r = true -> rateOf r <> NaN.
Proof. intros H. apply rankable_spec in H as [_ H]. now apply positive_not_NaN. Qed.



(** C7, the code at the failing input: on the empty collection the sums
    are 0, the national rates are computed as [0 / 0] without the guard of
    the per-record calculation, and the three rate fields hold the string
    "NaN"; the per-record calculation on the same counts gives the number
    0. *)
Theorem national_rates_of_empty_database :
  exists agg, aggregate [] = Ok agg /\
    National.totalHouseholds (national agg) = 0 /\
    National.povertyRate (national agg) = FxNaN /\
    National.aliceRate (national agg) = FxNaN /\
    National.combinedRate (national agg) = FxNaN /\
    fixed1_string (National.combinedRate (national agg)) = Some "NaN"%string /\
    calcRates 0 0 0 =
      {| r_poverty := RateNum0; r_alice := RateNum0; r_combined := RateNum0 |}.
Proof. eexists. split; [vm_compute; reflexivity|]. simpl. repeat split. Qed.

(** The national rates are the rate formula on the sums. *)
Lemma national_rates_from_sums db agg :
  aggregate db = Ok agg ->
  let n := national agg in
  National.povertyRate n =
    percent (National.povertyHouseholds n) (National.totalHouseholds n) /\
  National.aliceRate n =
    percent (National.aliceHouseholds n) (National.totalHouseholds n) /\
  National.combinedRate n =
    percent (National.povertyHouseholds n + National.aliceHouseholds n)
            (National.totalHouseholds n).
Proof. intros H. apply aggregate_Ok in H as (acc & _ & ->). simpl. auto. Qed.

(** C6: on every collection on which [createAggregatedStats] returns a
    report, the ranking is a rearrangement of the county-level records with
    [combinedRate > 0], no record standing before one of a higher rate,
    records of equal rate in their order in the collection;
    [highestCombinedRate] is built from its first 10 records and
    [lowestCombinedRate] from its last 10, reversed.  For counties with
    combined rates 10, 50, 50, 5 the highest list is: the two 50s in their
    original order, then 10, then 5. *)
Theorem extremes_ranking (db : list GeoRecord) :
  plainStates db ->
  exists agg, aggregate db = Ok agg /\
    let ranked := sortedByRate db in
    ranked ≡ₚ filter (fun r => Is_true (rankable r)) db /\
    (forall r, rankable r = true <->
               geoLevel r = county /\ num_ltb (Fin 0) (rateOf r) = true) /\
    StronglySorted (fun a b => num_ltb (rateOf a) (rateOf b) = false) ranked /\
    (forall x, rankable x = true ->
       filter (fun y => Is_true (tie placedAfter x y)) ranked =
       filter (fun y => Is_true (tie placedAfter x y))
              (filter (fun r => Is_true (rankable r)) db)) /\
    highestCombinedRate agg = extreme <$> take 10 ranked /\
    lowestCombinedRate agg = extreme <$> reverse (drop (length ranked - 10) ranked) /\
    (exists a, aggregate fourCounties = Ok a /\
       Extreme.location <$> highestCombinedRate a =
         ["B, Alabama"; "C, Georgia"; "A, Alabama"; "D, Georgia"]%string /\
       Extreme.combinedRate <$> highestCombinedRate a =
         RateStr <$> [FxDec false 500; FxDec false 500; FxDec false 100; FxDec false 50] /\
       Extreme.location <$> lowestCombinedRate a =
         ["D, Georgia"; "A, Alabama"; "C, Georgia"; "B, Alabama"]%string).
Proof.
  intros Hplain. destruct (aggregate_returns db Hplain) as [agg Hagg].
  exists agg. split; [exact Hagg|].
  destruct (aggregate_Ok db agg Hagg) as (acc & _ & ->). simpl.
  assert (HP : Forall (fun r => rateOf r <> NaN) (filter (fun r => Is_true (rankable r)) db)).
  { apply Forall_forall. intros r Hr.
    apply list_elem_of_filter in Hr as [Hr _].
    apply rankable_not_NaN. now apply Is_true_true. }
  assert (Hasym : forall x y : GeoRecord, rateOf x <> NaN -> rateOf y <> NaN ->
            placedAfter x y = true -> placedAfter y x = false).
  { intros x y _ _. apply num_ltb_asym. }
  assert (Hneg : forall x y z : GeoRecord, rateOf x <> NaN -> rateOf y <> NaN -> rateOf z <> NaN ->
            placedAfter x y = false -> placedAfter y z = false -> placedAfter x z = false).
  { intros x y z. apply num_ltb_negtrans. }
  split; [apply sortBy_perm|]. split; [apply rankable_spec|].
  split; [exact (sortBy_sorted placedAfter _ Hasym Hneg _ HP)|].
  split.
  - intros x Hx. apply (sortBy_stable placedAfter _ Hneg); [|exact HP].
    now apply rankable_not_NaN.
  - split; [reflexivity|]. split; [reflexivity|].
    eexists. split; [vm_compute; reflexivity|]. simpl. repeat split.
Qed.

Lemma extremes_ranking_witness :
  exists agg, aggregate fourCounties = Ok agg /\
    highestCombinedRate agg = extreme <$> take 10 (sortedByRate fourCounties).
Proof.
  destruct (extremes_ranking fourCounties) as (agg & H & _ & _ & _ & _ & Hh & _).
  - unfold plainStates. repeat constructor; vm_compute; intros; reflexivity.
  - exists agg. split; assumption.
Defined.

End AggregatorProperties.

(* ===================================================================== *)
(** ** The loop over the files and main *)
(* ===================================================================== *)

Section PipelineFacts.

Import Samples.

(** The loop throws when one of the files it is given cannot be read. *)
Lemma forEachM_processFile_unreadable files : forall db f,
  f ∈ files -> readFile f = None ->
  exists e, forEachM processFile files db = Throw e.
Proof.
  induction files as [|f0 files IH]; intros db f Hin Hf.
  - inversion Hin.
  - rewrite forEachM_cons. apply elem_of_cons in Hin as [-> | Hin].
    + unfold processFile. rewrite Hf. eauto.
    + destruct (processFile db f0) as [db1|e]; [|eauto].
      eapply IH; eassumption.
Qed.

(** [main] after an exception of [buildMasterDatabase]: nothing written,
    the exception logged. *)
Lemma main_of_Throw dir e w :
  masterDatabase dir = Throw e ->
  main dir w = {| written := written w; consoleError := consoleError w ++ [e] |}.
Proof.
  intros H. unfold main, tryCatch, buildMasterDatabase, lift, mbind, IO_bind.
  rewrite H. reflexivity.
Qed.

(** C2, as stated, fails: with an unreadable second file of three, no
    artifact is written at all, neither with the record of the first file
    nor with that of the third, while the first and third file alone give
    the four artifacts, the database holding their two records. *)
Lemma unreadable_file_discards_all :
  written (main threeFiles emptyWorld) = [] /\
  consoleError (main threeFiles emptyWorld) = [SourceReadError "broken_data.xlsx"] /\
  exists r1 r3 agg,
    countyRecord autauga = Some r1 /\
    subcountyRecord placeAbbreviated = Ok (Some r3) /\
    written (main twoFiles emptyWorld) =
      [MasterCsv [r1; r3]; MasterJson [r1; r3]; DatabaseStatistics 2; AggregatedStats agg].
Proof.
  split; [vm_compute; reflexivity|]. split; [vm_compute; reflexivity|].
  do 3 eexists. split; [vm_compute; reflexivity|].
  split; [vm_compute; reflexivity|]. vm_compute. reflexivity.
Qed.

(** C2, amended: when one of the spreadsheet files of the directory cannot
    be opened or parsed, the exception leaves the loop of
    [buildMasterDatabase] and reaches the one [try / catch] of [main],
    which logs it: the run writes no artifact, so the records of the files
    before it are not kept and the files after it are not read. *)
Theorem unreadable_file_aborts_run (dir : list InputFile) (f : InputFile) (w : World) :
  f ∈ excelFiles dir -> readFile f = None ->
  (exists e, masterDatabase dir = Throw e /\
             consoleError (main dir w) = consoleError w ++ [e]) /\
  written (main dir w) = written w.
Proof.
  intros Hin Hf.
  destruct (forEachM_processFile_unreadable (excelFiles dir) [] f Hin Hf) as [e He].
  fold (masterDatabase dir) in He. rewrite (main_of_Throw dir e w He). simpl.
  split; [exists e; split; [exact He | reflexivity] | reflexivity].
Qed.

Lemma unreadable_file_aborts_run_witness :
  written (main threeFiles emptyWorld) = [].
Proof.
  apply (unreadable_file_aborts_run threeFiles brokenFile emptyWorld).
  - vm_compute. apply list_elem_of_In. simpl. auto.
  - reflexivity.
Defined.

End PipelineFacts.

(* ===================================================================== *)
(** ** createAggregatedStats on the heap *)
(* ===================================================================== *)

Section StoreFrame.

Import Store.

Variable h0 : Heap.

Lemma unchanged_refl : unchanged h0 h0.
Proof. split; auto. Qed.

Lemma unchanged_dom h a :
  unchanged h0 h -> a ∈ dom (arrays h0) -> a ∈ dom (arrays h).
Proof.
  intros [_ H] Ha. rewrite elem_of_dom, (H a Ha). now apply elem_of_dom.
Qed.

Lemma unchanged_setArray h a l :
  unchanged h0 h -> a ∉ dom (arrays h0) -> unchanged h0 (setArray a l h).
Proof.
  intros [Ho Ha] Hfresh. split; [exact Ho|].
  intros b Hb. simpl. rewrite lookup_insert_ne; [now apply Ha|].
  intros ->. contradiction.
Qed.

Lemma keeps_ret {A} (a : A) (Q : A -> Prop) : Q a -> keeps h0 (mret a) Q.
Proof. intros HQ h Hh. split; [exact Hh|]. now intros a' [= <-]. Qed.

Lemma keeps_bind {A B} (m : ST A) (k : A -> ST B) (Q : A -> Prop) (R : B -> Prop) :
  keeps h0 m Q -> (forall a, Q a -> keeps h0 (k a) R) -> keeps h0 (m ≫= k) R.
Proof.
  intros Hm Hk h Hh. destruct (Hm h Hh) as [Hu HQ].
  unfold mbind, ST_bind. destruct (m h) as [[a|e] h']; simpl in *.
  - apply (Hk a (HQ a eq_refl) h' Hu).
  - split; [exact Hu | discriminate].
Qed.

Lemma keeps_weaken {A} (m : ST A) (Q R : A -> Prop) :
  keeps h0 m Q -> (forall a, Q a -> R a) -> keeps h0 m R.
Proof. intros Hm HQR h Hh. destruct (Hm h Hh) as [Hu HQ]. split; auto. Qed.

Lemma keeps_liftR {A} (r : result A) : keeps h0 (liftR r) (fun _ => True).
Proof. intros h Hh. split; auto. Qed.

Lemma keeps_elements a : keeps h0 (elements a) (fun _ => True).
Proof.
  intros h Hh. unfold elements. destruct (arrays h !! a); simpl; auto.
Qed.

Lemma keeps_deref r : keeps h0 (deref r) (fun _ => True).
Proof.
  intros h Hh. unfold deref. destruct (objects h !! r); simpl; auto.
Qed.

Lemma keeps_derefAll l : keeps h0 (derefAll l) (fun _ => True).
Proof.
  induction l as [|r l IH]; simpl.
  - now apply keeps_ret.
  - eapply keeps_bind; [apply keeps_deref|]. intros o _.
    eapply keeps_bind; [apply IH|]. intros os _. now apply keeps_ret.
Qed.

(** A new array is none of the arrays of [h0]. *)
Lemma keeps_allocArray l :
  keeps h0 (allocArray l) (fun a => a ∉ dom (arrays h0)).
Proof.
  intros h Hh. unfold allocArray. simpl.
  assert (Hfresh : fresh (dom (arrays h)) ∉ dom (arrays h0)).
  { intros Hin. apply (is_fresh (dom (arrays h))). now apply unchanged_dom. }
  split; [now apply unchanged_setArray|]. now intros a [= <-].
Qed.

(** Writing to an array that is none of the arrays of [h0]. *)
Lemma keeps_storeArray a l :
  a ∉ dom (arrays h0) -> keeps h0 (storeArray a l) (fun _ => True).
Proof. intros Ha h Hh. unfold storeArray. simpl. split; [now apply unchanged_setArray | auto]. Qed.

Lemma keeps_arrayForEach {S} (cb : S -> GeoRecord -> result S) a s :
  keeps h0 (arrayForEach cb a s) (fun _ => True).
Proof.
  unfold arrayForEach.
  eapply keeps_bind; [apply keeps_elements|]. intros l _.
  eapply keeps_bind; [apply keeps_derefAll|]. intros os _. apply keeps_liftR.
Qed.

Lemma keeps_arrayFilter p a :
  keeps h0 (arrayFilter p a) (fun a' => a' ∉ dom (arrays h0)).
Proof.
  unfold arrayFilter.
  eapply keeps_bind; [apply keeps_elements|]. intros l _.
  eapply keeps_bind; [apply keeps_derefAll|]. intros os _. apply keeps_allocArray.
Qed.

Lemma keeps_arraySort after a :
  a ∉ dom (arrays h0) ->
  keeps h0 (arraySort after a) (fun a' => a' ∉ dom (arrays h0)).
Proof.
  intros Ha. unfold arraySort.
  eapply keeps_bind; [apply keeps_elements|]. intros l _.
  eapply keeps_bind; [apply keeps_derefAll|]. intros os _.
  eapply keeps_bind; [now apply keeps_storeArray|]. intros _ _. now apply keeps_ret.
Qed.

Lemma keeps_arraySliceFirst n a :
  keeps h0 (arraySliceFirst n a) (fun a' => a' ∉ dom (arrays h0)).
Proof.
  unfold arraySliceFirst.
  eapply keeps_bind; [apply keeps_elements|]. intros l _. apply keeps_allocArray.
Qed.

Lemma keeps_arraySliceLast n a :
  keeps h0 (arraySliceLast n a) (fun a' => a' ∉ dom (arrays h0)).
Proof.
  unfold arraySliceLast.
  eapply keeps_bind; [apply keeps_elements|]. intros l _. apply keeps_allocArray.
Qed.

Lemma keeps_arrayReverse a :
  a ∉ dom (arrays h0) ->
  keeps h0 (arrayReverse a) (fun a' => a' ∉ dom (arrays h0)).
Proof.
  intros Ha. unfold arrayReverse.
  eapply keeps_bind; [apply keeps_elements|]. intros l _.
  eapply keeps_bind; [now apply keeps_storeArray|]. intros _ _. now apply keeps_ret.
Qed.

Lemma keeps_arrayMap {B} (f : GeoRecord -> B) a :
  keeps h0 (arrayMap f a) (fun _ => True).
Proof.
  unfold arrayMap.
  eapply keeps_bind; [apply keeps_elements|]. intros l _.
  eapply keeps_bind; [apply keeps_derefAll|]. intros os _. now apply keeps_ret.
Qed.

(** The only arrays written to are the ones the function made itself. *)
Lemma keeps_createAggregatedStats database :
  keeps h0 (Store.createAggregatedStats database) (fun _ => True).
Proof.
  unfold Store.createAggregatedStats.
  eapply keeps_bind; [apply keeps_arrayForEach|]. intros acc _.
  eapply keeps_bind; [apply keeps_arrayFilter|]. intros filtered Hf.
  eapply keeps_bind; [apply keeps_arraySort, Hf|]. intros sorted Hs.
  eapply keeps_bind; [apply keeps_arraySliceFirst|]. intros first10 _.
  eapply keeps_bind; [apply keeps_arrayMap|]. intros highest _.
  eapply keeps_bind; [apply keeps_arraySliceLast|]. intros last10 Hl.
  eapply keeps_bind; [apply keeps_arrayReverse, Hl|]. intros reversed _.
  eapply keeps_bind; [apply keeps_arrayMap|]. intros lowest _.
  now apply keeps_ret.
Qed.

End StoreFrame.

Section StoreRun.

Import Store.

Lemma run_bind {A B} (m : ST A) (k : A -> ST B) h a h' :
  m h = (Ok a, h') -> (m ≫= k) h = k a h'.
Proof. intros H. unfold mbind, ST_bind. now rewrite H. Qed.

Lemma run_bind_Throw {A B} (m : ST A) (k : A -> ST B) h e h' :
  m h = (Throw e, h') -> (m ≫= k) h = (Throw e, h').
Proof. intros H. unfold mbind, ST_bind. now rewrite H. Qed.

Lemma run_elements h a l :
  arrays h !! a = Some l -> elements a h = (Ok l, h).
Proof. intros H. unfold elements. now rewrite H. Qed.

Lemma run_derefAll h refs recs :
  resolves (objects h) refs recs -> derefAll refs h = (Ok recs, h).
Proof.
  induction 1 as [|a r refs recs Ha _ IH]; [reflexivity|].
  simpl. erewrite run_bind; [|unfold deref; rewrite Ha; reflexivity].
  erewrite run_bind; [|exact IH]. reflexivity.
Qed.

Lemma resolves_zip objs refs recs :
  resolves objs refs recs ->
  Forall (fun z => objs !! z.1 = Some z.2) (zip refs recs) /\
  snd <$> zip refs recs = recs.
Proof.
  induction 1 as [|a r refs recs Ha _ [IH1 IH2]]; [split; [constructor | reflexivity]|].
  change (zip (a :: refs) (r :: recs)) with ((a, r) :: zip refs recs).
  split; [constructor; assumption | now rewrite fmap_cons, IH2].
Qed.

Lemma resolves_pairs objs (zs : list (loc * GeoRecord)) :
  Forall (fun z => objs !! z.1 = Some z.2) zs ->
  resolves objs (fst <$> zs) (snd <$> zs).
Proof. induction 1; simpl; constructor; assumption. Qed.

Lemma filter_snd (p : GeoRecord -> bool) (zs : list (loc * GeoRecord)) :
  snd <$> filter (fun z => Is_true (p z.2)) zs =
  filter (fun r => Is_true (p r)) (snd <$> zs).
Proof.
  induction zs as [|z zs IH]; [reflexivity|].
  rewrite fmap_cons. destruct (p z.2) eqn:E.
  - rewrite !filter_cons_True by (rewrite E; exact I).
    now rewrite fmap_cons, IH.
  - rewrite !filter_cons_False by (rewrite E; exact id).
    exact IH.
Qed.

Lemma insertBy_snd (after : GeoRecord -> GeoRecord -> bool) z (zs : list (loc * GeoRecord)) :
  snd <$> insertBy (fun x y => after x.2 y.2) z zs =
  insertBy after z.2 (snd <$> zs).
Proof.
  induction zs as [|y zs IH]; [reflexivity|].
  cbn [insertBy]. rewrite fmap_cons. cbn [insertBy].
  destruct (after z.2 y.2); [now rewrite fmap_cons, IH | reflexivity].
Qed.

Lemma sortBy_snd (after : GeoRecord -> GeoRecord -> bool) (zs : list (loc * GeoRecord)) :
  snd <$> sortBy (fun x y => after x.2 y.2) zs = sortBy after (snd <$> zs).
Proof.
  induction zs as [|z zs IH]; [reflexivity|].
  unfold sortBy in *. rewrite fmap_cons. cbn [foldr]. now rewrite insertBy_snd, IH.
Qed.

Lemma resolves_filter objs p refs recs :
  resolves objs refs recs ->
  resolves objs (fst <$> filter (fun z => Is_true (p z.2)) (zip refs recs))
                (filter (fun r => Is_true (p r)) recs).
Proof.
  intros H. destruct (resolves_zip _ _ _ H) as [Hz Hs].
  revert Hz Hs. generalize (zip refs recs). intros zs Hz <-.
  rewrite <- filter_snd. apply resolves_pairs.
  apply Forall_forall. intros z Hin. apply list_elem_of_filter in Hin as [_ Hin].
  rewrite Forall_forall in Hz. now apply Hz.
Qed.

Lemma resolves_sort objs after refs recs :
  resolves objs refs recs ->
  resolves objs (fst <$> sortBy (fun x y => after x.2 y.2) (zip refs recs))
                (sortBy after recs).
Proof.
  intros H. destruct (resolves_zip _ _ _ H) as [Hz Hs].
  revert Hz Hs. generalize (zip refs recs). intros zs Hz <-.
  rewrite <- sortBy_snd. apply resolves_pairs.
  now rewrite sortBy_perm.
Qed.

Lemma resolves_sliceLast objs n refs recs :
  resolves objs refs recs -> resolves objs (sliceLast n refs) (sliceLast n recs).
Proof.
  intros H. unfold sliceLast. rewrite (Forall2_length _ _ _ H).
  now apply Forall2_drop.
Qed.

Lemma setArray_lookup a l h : arrays (setArray a l h) !! a = Some l.
Proof. simpl. apply lookup_insert_eq. Qed.

Lemma setArray_lookup_ne a b l h :
  a <> b -> arrays (setArray a l h) !! b = arrays h !! b.
Proof. intros H. simpl. now apply lookup_insert_ne. Qed.

Lemma fresh_ne (m : gmap loc (list loc)) a l :
  m !! a = Some l -> fresh (dom m) <> a.
Proof.
  intros H E. apply (is_fresh (dom m)). rewrite E. apply elem_of_dom. eauto.
Qed.

(** On a heap whose array [database] leads to the records [recs], the
    function on the heap computes the report of [aggregate recs]. *)
Lemma createAggregatedStats_run h database refs recs :
  arrays h !! database = Some refs ->
  resolves (objects h) refs recs ->
  fst (Store.createAggregatedStats database h) = aggregate recs.
Proof.
  intros Hdb Hres. unfold Store.createAggregatedStats, aggregate.
  assert (Hfe : arrayForEach accumulate database noSums h =
                (forEachM accumulate recs noSums, h)).
  { unfold arrayForEach. erewrite run_bind; [|apply run_elements; eassumption].
    erewrite run_bind; [|apply run_derefAll; eassumption]. reflexivity. }
  destruct (forEachM accumulate recs noSums) as [acc|e];
    [|erewrite run_bind_Throw; [reflexivity | exact Hfe]].
  erewrite run_bind; [|exact Hfe].
  (* filter *)
  set (filtered := fresh (dom (arrays h))).
  set (l1 := fst <$> filter (fun z => Is_true (rankable z.2)) (zip refs recs)).
  assert (Hfi : arrayFilter rankable database h = (Ok filtered, setArray filtered l1 h)).
  { unfold arrayFilter. erewrite run_bind; [|apply run_elements; eassumption].
    erewrite run_bind; [|apply run_derefAll; eassumption]. reflexivity. }
  erewrite run_bind; [|exact Hfi].
  assert (Hr1 : resolves (objects h) l1 (filter (fun r => Is_true (rankable r)) recs))
    by now apply resolves_filter.
  (* sort *)
  set (h1 := setArray filtered l1 h).
  set (l2 := fst <$> sortBy (fun x y => placedAfter x.2 y.2)
                            (zip l1 (filter (fun r => Is_true (rankable r)) recs))).
  assert (Hso : arraySort placedAfter filtered h1 = (Ok filtered, setArray filtered l2 h1)).
  { unfold arraySort. erewrite run_bind; [|apply run_elements, setArray_lookup].
    erewrite run_bind; [|apply run_derefAll; eassumption]. reflexivity. }
  erewrite run_bind; [|exact Hso].
  assert (Hr2 : resolves (objects h) l2 (sortedByRate recs))
    by now apply resolves_sort.
  (* slice(0, 10), map *)
  set (h2 := setArray filtered l2 h1).
  set (first10 := fresh (dom (arrays h2))).
  assert (Hs1 : arraySliceFirst 10 filtered h2 = (Ok first10, setArray first10 (take 10 l2) h2)).
  { unfold arraySliceFirst. erewrite run_bind; [|apply run_elements, setArray_lookup].
    reflexivity. }
  erewrite run_bind; [|exact Hs1].
  set (h3 := setArray first10 (take 10 l2) h2).
  assert (Hm1 : arrayMap extreme first10 h3 = (Ok (extreme <$> take 10 (sortedByRate recs)), h3)).
  { unfold arrayMap. erewrite run_bind; [|apply run_elements, setArray_lookup].
    erewrite run_bind; [|apply run_derefAll, Forall2_take; eassumption]. reflexivity. }
  erewrite run_bind; [|exact Hm1].
  (* slice(-10), reverse, map *)
  assert (Hl2 : arrays h3 !! filtered = Some l2).
  { unfold h3. rewrite setArray_lookup_ne; [apply setArray_lookup|].
    apply (fresh_ne _ _ l2), setArray_lookup. }
  set (last10 := fresh (dom (arrays h3))).
  assert (Hs2 : arraySliceLast 10 filtered h3 = (Ok last10, setArray last10 (sliceLast 10 l2) h3)).
  { unfold arraySliceLast. erewrite run_bind; [|apply run_elements, Hl2]. reflexivity. }
  erewrite run_bind; [|exact Hs2].
  set (h4 := setArray last10 (sliceLast 10 l2) h3).
  assert (Hrv : arrayReverse last10 h4 =
                (Ok last10, setArray last10 (reverse (sliceLast 10 l2)) h4)).
  { unfold arrayReverse. erewrite run_bind; [|apply run_elements, setArray_lookup].
    reflexivity. }
  erewrite run_bind; [|exact Hrv].
  set (h5 := setArray last10 (reverse (sliceLast 10 l2)) h4).
  assert (Hm2 : arrayMap extreme last10 h5 =
                (Ok (extreme <$> reverse (sliceLast 10 (sortedByRate recs))), h5)).
  { unfold arrayMap. erewrite run_bind; [|apply run_elements, setArray_lookup].
    erewrite run_bind;
      [|apply run_derefAll, Forall2_reverse, resolves_sliceLast; eassumption].
    reflexivity. }
  erewrite run_bind; [|exact Hm2].
  reflexivity.
Qed.

End StoreRun.

Section StoreProperties.

Import Samples.

(** C10: running [createAggregatedStats] on a heap leaves the array
    [database] with the same references in the same order, leaves every
    record object with all its fields as it was, and leaves every other
    array that existed before as it was: the arrays it sorts and reverses
    in place are the ones [filter] and [slice] made.  This holds whether
    the function returns or throws; when [database] leads to the records
    [recs], what it computes is the report [aggregate recs]. *)
Theorem aggregation_leaves_database_unchanged
    (h : Store.Heap) (database : Store.loc) (refs : list Store.loc) :
  Store.arrays h !! database = Some refs ->
  let h' := snd (Store.createAggregatedStats database h) in
  Store.arrays h' !! database = Some refs /\
  Store.objects h' = Store.objects h /\
  (forall a, a ∈ dom (Store.arrays h) -> Store.arrays h' !! a = Store.arrays h !! a) /\
  (forall recs, resolves (Store.objects h) refs recs ->
     fst (Store.createAggregatedStats database h) = aggregate recs).
Proof.
  intros Hdb h'.
  destruct (keeps_createAggregatedStats h database h (unchanged_refl h)) as [[Ho Ha] _].
  fold h' in Ho, Ha. split; [|split; [exact Ho | split; [exact Ha|]]].
  - rewrite Ha; [exact Hdb|]. apply elem_of_dom. eauto.
  - intros recs Hres. now apply createAggregatedStats_run with (refs := refs).
Qed.

Lemma aggregation_leaves_database_unchanged_witness :
  Store.arrays (snd (Store.createAggregatedStats 7%positive fourOnHeap)) !! 7%positive =
  Some [1; 2; 3; 4]%positive.
Proof.
  destruct (aggregation_leaves_database_unchanged fourOnHeap 7%positive [1; 2; 3; 4]%positive)
    as [H _]; [vm_compute; reflexivity | exact H].
Defined.

End StoreProperties.

Section RateProperties.

Import Samples.

(** On sample counts the rounding of [Num] gives the doubles the
    machine's binary64 arithmetic gives. *)
Example rounding_agrees_with_binary64 :
  Forall (fun c : Z * Z =>
            js_mul (js_div (Fin (inject_Z c.1)) (Fin (inject_Z c.2))) (Fin 100) =
            Hardware.times100 c.1 c.2)
    [ (150, 1000); (300, 1000); (450, 1000); (3, 2000); (1, 2000); (1, 3); (2, 3);
      (0, 7); (1, 9007199254740991); (9007199254740991, 1); (123456, 654321);
      (1000000000000, 999999999999); (7, 0); (0, 0) ].
Proof. repeat constructor; vm_compute; reflexivity. Qed.

Example rounding_agrees_on_small_counts :
  forallb (fun c => Hardware.agrees c.1 c.2) (Hardware.grid 48) = true.
Proof. vm_compute. reflexivity. Qed.

(** At the tie 0.15 the double computed is just below it and "0.1" is
    printed. *)
Example tie_prints_lower_tenth :
  exists r, countyRecord tieRate = Some r /\
    povertyRate r = RateStr (FxDec false 1) /\
    fixed1_string (FxDec false 1) = Some "0.1"%string /\
    1000 * povertyHouseholds r = 3 * totalHouseholds r / 2.
Proof.
  eexists. split; [vm_compute; reflexivity|]. simpl.
  split; [reflexivity|]. split; vm_compute; reflexivity.
Qed.

Lemma nearestTenth_exact n num total k :
  0 < total -> nearestTenth n num total -> 1000 * num = k * total -> n = k.
Proof. unfold nearestTenth. intros Ht Hn Hk. nia. Qed.

(** C4, as stated, fails: with 1 household and 9007199254740991 poverty
    households the record is emitted with [totalHouseholds > 0] and the
    poverty rate "900719925474099072.0", while
    [100 * povertyHouseholds / totalHouseholds] is 900719925474099100: the
    product is rounded to a double before it is printed. *)
Lemma rate_beyond_double_precision :
  exists r, countyRecord hugeCounts = Some r /\
    0 < totalHouseholds r /\
    povertyRate r = RateStr (FxDec false 9007199254740990720) /\
    fixed1_string (FxDec false 9007199254740990720) = Some "900719925474099072.0"%string /\
    100 * povertyHouseholds r = 900719925474099100 * totalHouseholds r /\
    ~ nearestTenth 9007199254740990720 (povertyHouseholds r) (totalHouseholds r).
Proof.
  eexists. split; [vm_compute; reflexivity|]. simpl.
  split; [lia|]. split; [reflexivity|]. split; [vm_compute; reflexivity|].
  split; [reflexivity|]. unfold nearestTenth. lia.
Qed.

(** C4, amended: for every record emitted from either sheet with
    [0 < totalHouseholds < 2^53] and non-negative poverty and ALICE counts
    of sum at most 10^12, each rate is a [toFixed] string of a non-negative
    number with one decimal, and that number is within half a tenth of
    [100 * povertyHouseholds / totalHouseholds],
    [100 * aliceHouseholds / totalHouseholds] and
    [100 * (povertyHouseholds + aliceHouseholds) / totalHouseholds]
    respectively (at an exact tie either neighbour may be printed).  The
    county row with 1000 households, 150 in poverty and 300 ALICE has the
    rates "15.0", "30.0" and "45.0". *)
Theorem rates_nearest_tenth (row : RawRow) (r : GeoRecord) :
  countyRecord row = Some r \/ subcountyRecord row = Ok (Some r) ->
  0 < totalHouseholds r < 2 ^ 53 ->
  0 <= povertyHouseholds r -> 0 <= aliceHouseholds r ->
  povertyHouseholds r + aliceHouseholds r <= 10 ^ 12 ->
  exists n1 n2 n3,
    povertyRate r = RateStr (FxDec false n1) /\
    aliceRate r = RateStr (FxDec false n2) /\
    combinedRate r = RateStr (FxDec false n3) /\
    nearestTenth n1 (povertyHouseholds r) (totalHouseholds r) /\
    nearestTenth n2 (aliceHouseholds r) (totalHouseholds r) /\
    nearestTenth n3 (povertyHouseholds r + aliceHouseholds r) (totalHouseholds r) /\
    (exists r0, countyRecord autauga = Some r0 /\
       match povertyRate r0, aliceRate r0, combinedRate r0 with
       | RateStr f1, RateStr f2, RateStr f3 =>
           fixed1_string f1 = Some "15.0"%string /\
           fixed1_string f2 = Some "30.0"%string /\
           fixed1_string f3 = Some "45.0"%string
       | _, _, _ => False
       end).
Proof.
  intros Hemit Ht Hp Ha Hsum.
  assert (Hrates :
    povertyRate r = r_poverty (calcRates (totalHouseholds r) (povertyHouseholds r) (aliceHouseholds r)) /\
    aliceRate r = r_alice (calcRates (totalHouseholds r) (povertyHouseholds r) (aliceHouseholds r)) /\
    combinedRate r = r_combined (calcRates (totalHouseholds r) (povertyHouseholds r) (aliceHouseholds r))).
  { destruct Hemit as [Hc | Hs];
      [eapply countyRecord_rates | eapply subcountyRecord_rates]; eassumption. }
  destruct Hrates as (-> & -> & ->). unfold calcRates.
  destruct (Z.ltb_spec 0 (totalHouseholds r)) as [_|Hle]; [|lia]. simpl.
  destruct (percent_nearest (povertyHouseholds r) (totalHouseholds r)) as (n1 & -> & H1); [lia | lia |].
  destruct (percent_nearest (aliceHouseholds r) (totalHouseholds r)) as (n2 & -> & H2); [lia | lia |].
  destruct (percent_nearest (povertyHouseholds r + aliceHouseholds r) (totalHouseholds r))
    as (n3 & -> & H3); [lia | lia |].
  exists n1, n2, n3. repeat split; try assumption.
  eexists. split; [vm_compute; reflexivity|]. simpl. repeat split; vm_compute; reflexivity.
Qed.

Lemma rates_nearest_tenth_witness :
  exists r n, countyRecord tieRate = Some r /\
    povertyRate r = RateStr (FxDec false n) /\ nearestTenth n 3 2000.
Proof.
  destruct (countyRecord tieRate) as [r|] eqn:E; [|vm_compute in E; discriminate].
  assert (Hr : totalHouseholds r = 2000 /\ povertyHouseholds r = 3 /\ aliceHouseholds r = 0).
  { vm_compute in E. injection E as <-. repeat split. }
  destruct Hr as (Ht & Hp & Ha).
  destruct (rates_nearest_tenth tieRate r) as (n1 & n2 & n3 & H1 & _ & _ & N1 & _);
    [left; exact E | rewrite Ht; lia | rewrite Hp; lia | rewrite Ha; lia
    | rewrite Hp, Ha; lia |].
  exists r, n1. split; [reflexivity|]. split; [exact H1|].
  rewrite Hp, Ht in N1. exact N1.
Defined.

End RateProperties.

(* ===================================================================== *)
(** ** The loop over the files, file by file *)
(* ===================================================================== *)

Section LoopFacts.

Lemma subcountyRecord_Throw_iff row :
  (exists e, subcountyRecord row = Throw e) <-> rowThrows row = true.
Proof.
  unfold subcountyRecord, rowThrows, subcountyLevel.
  destruct (truthy (cell row "GEO id2")); simpl.
  - destruct (truthy (cell row "Type")) eqn:Et; simpl.
    + destruct (cell row "Type"); simpl; split; intros H; try reflexivity;
        try discriminate; try (eexists; reflexivity).
      destruct H as [e H]. discriminate.
    + split; [intros [e H]; discriminate | discriminate].
  - split; [intros [e H]; discriminate | discriminate].
Qed.

Lemma subcountyRecord_returns row :
  rowThrows row = false -> exists o, subcountyRecord row = Ok o.
Proof.
  intros H. destruct (subcountyRecord row) as [o|e] eqn:E; [eauto|].
  assert (rowThrows row = true) by (apply subcountyRecord_Throw_iff; eauto).
  congruence.
Qed.

(** The Subcounty block appends the records of its rows, in row order. *)
Lemma forEachM_pushSubcounty rows : forall db,
  Forall (fun row => rowThrows row = false) rows ->
  forEachM pushSubcounty rows db = Ok (db ++ subcountyEmitted rows).
Proof.
  induction rows as [|row rows IH]; intros db H.
  - simpl. now rewrite app_nil_r.
  - apply Forall_cons in H as [Hrow H]. rewrite forEachM_cons.
    destruct (subcountyRecord_returns row Hrow) as [o Ho].
    unfold pushSubcounty at 1. rewrite Ho. simpl. rewrite (IH _ H).
    unfold subcountyEmitted. simpl. rewrite Ho.
    destruct o; simpl; now rewrite <- app_assoc.
Qed.

Lemma processFile_clean db f :
  clean f -> processFile db f = Ok (db ++ recordsOf f).
Proof.
  intros (wb & Hwb & Hrows). unfold processFile, recordsOf. rewrite Hwb.
  unfold subcountyRecords, fileRecords, sheetRows in *.
  destruct (wb !! "Subcounty") as [rows|]; simpl in *.
  - rewrite (forEachM_pushSubcounty rows _ Hrows). now rewrite app_assoc.
  - now rewrite app_nil_r.
Qed.

Lemma forEachM_processFile_clean files : forall db,
  Forall clean files ->
  forEachM processFile files db = Ok (db ++ concat (recordsOf <$> files)).
Proof.
  induction files as [|f files IH]; intros db H.
  - simpl. now rewrite app_nil_r.
  - apply Forall_cons in H as [Hf H]. rewrite forEachM_cons.
    rewrite (processFile_clean db f Hf), (IH _ H), fmap_cons. simpl.
    now rewrite app_assoc.
Qed.

(** The first exception of a callback ends a loop with that exception. *)
Lemma forEachM_throws {S A} (f : S -> A -> result S) l x :
  x ∈ l -> (forall s, exists e, f s x = Throw e) ->
  forall s, exists e, forEachM f l s = Throw e.
Proof.
  intros Hin Hx. induction l as [|y l IH]; intros s; [inversion Hin|].
  rewrite forEachM_cons. apply elem_of_cons in Hin as [<- | Hin].
  - destruct (Hx s) as [e ->]. eauto.
  - destruct (f s y); [now apply IH | eauto].
Qed.

End LoopFacts.

(* ===================================================================== *)
(** ** What a run writes *)
(* ===================================================================== *)

Section RunOutcomes.

Import Samples.

(** What [main] leaves behind, by the two places an exception can come
    from. *)
Lemma main_cases dir w :
  main dir w =
  match masterDatabase dir with
  | Throw e => {| written := written w; consoleError := consoleError w ++ [e] |}
  | Ok db =>
      let files := [MasterCsv db; MasterJson db; DatabaseStatistics (length db)] in
      match aggregate db with
      | Ok agg => {| written := (written w ++ files) ++ [AggregatedStats agg];
                     consoleError := consoleError w |}
      | Throw e => {| written := written w ++ files;
                      consoleError := consoleError w ++ [e] |}
      end
  end.
Proof.
  unfold main, tryCatch, buildMasterDatabase, Pipeline.createAggregatedStats,
    lift, writeFile, mbind, IO_bind, mret, IO_ret.
  destruct (masterDatabase dir) as [db|e]; simpl; [|reflexivity].
  destruct (aggregate db) as [agg|e]; simpl; rewrite <- ?app_assoc; reflexivity.
Qed.


Lemma masterDatabase_rec dir :
  Forall clean (excelFiles dir) ->
  masterDatabase dir = Ok (concat (recordsOf <$> excelFiles dir)).
Proof.
  intros H. unfold masterDatabase.
  now rewrite (forEachM_processFile_clean _ [] H).
Qed.

(** X2: when every spreadsheet file is read and no Subcounty row has a
    truthy [Type] that is not a string, the database is the records of the
    files in directory order, each file's County rows before its Subcounty
    rows, each sheet in row order. *)
Theorem masterDatabase_in_file_order (dir : list InputFile) :
  Forall clean (excelFiles dir) ->
  masterDatabase dir = Ok (concat (recordsOf <$> excelFiles dir)).
Proof. apply masterDatabase_rec. Qed.

Lemma twoFiles_clean : Forall clean (excelFiles twoFiles).
Proof.
  repeat constructor; eexists; (split; [reflexivity|]); vm_compute; repeat constructor.
Qed.

Lemma masterDatabase_in_file_order_witness :
  masterDatabase twoFiles = Ok (concat (recordsOf <$> excelFiles twoFiles)).
Proof. apply (masterDatabase_in_file_order twoFiles). exact twoFiles_clean. Defined.

(** X3: a directory entry whose name does not end in ".xlsx" is never read:
    with or without it, readable or not, the run is the same. *)
Theorem other_entries_are_ignored
    (before : list InputFile) (f : InputFile) (after : list InputFile) (w : World) :
  endsWith (fileName f) ".xlsx" = false ->
  main (before ++ f :: after) w = main (before ++ after) w.
Proof.
  intros H. rewrite !main_cases. unfold masterDatabase, excelFiles.
  rewrite !filter_app, filter_cons_False; [reflexivity|].
  rewrite H. exact id.
Qed.

Lemma other_entries_are_ignored_witness :
  main ([firstFile] ++ {| fileName := "notes.txt"; readFile := None |} :: [lastFile]) emptyWorld =
  main ([firstFile] ++ [lastFile]) emptyWorld.
Proof.
  apply (other_entries_are_ignored [firstFile]
           {| fileName := "notes.txt"; readFile := None |} [lastFile] emptyWorld).
  vm_compute. reflexivity.
Defined.

(** X4: one Subcounty row whose [GEO id2] is truthy and whose [Type] is
    truthy but not a string (a number, [true]) makes the callback throw; the
    run then writes no file at all and logs one error. *)
Theorem non_string_type_aborts_run
    (dir : list InputFile) (f : InputFile) (wb : Workbook) (row : RawRow) (w : World) :
  f ∈ excelFiles dir -> readFile f = Some wb ->
  row ∈ sheetRows wb "Subcounty" -> rowThrows row = true ->
  written (main dir w) = written w /\
  exists e, consoleError (main dir w) = consoleError w ++ [e].
Proof.
  intros Hf Hwb Hrow Hthrows. rewrite main_cases.
  assert (Hfile : forall db, exists e, processFile db f = Throw e).
  { intros db. unfold processFile, subcountyRecords. rewrite Hwb.
    unfold sheetRows in Hrow. destruct (wb !! "Subcounty") as [rows|]; [|inversion Hrow].
    simpl in Hrow. apply (forEachM_throws pushSubcounty rows row Hrow).
    intros s. apply subcountyRecord_Throw_iff in Hthrows as [e He].
    exists e. unfold pushSubcounty. now rewrite He. }
  destruct (forEachM_throws processFile (excelFiles dir) f Hf Hfile []) as [e He].
  fold (masterDatabase dir) in He. rewrite He. simpl. eauto.
Qed.

Lemma non_string_type_aborts_run_witness :
  written (main [firstFile; MoreSamples.typedFile] emptyWorld) = [].
Proof.
  destruct (non_string_type_aborts_run [firstFile; MoreSamples.typedFile] MoreSamples.typedFile
              (list_to_map [("Subcounty", [placeAbbreviated; MoreSamples.numericType])])
              MoreSamples.numericType emptyWorld) as [H _].
  - vm_compute. apply list_elem_of_In. simpl. auto.
  - reflexivity.
  - vm_compute. apply list_elem_of_In. simpl. auto.
  - vm_compute. reflexivity.
  - exact H.
Defined.






End RunOutcomes.

(* ===================================================================== *)
(** ** Levels by sheet *)
(* ===================================================================== *)

Section SheetLevels.

Import Samples.

Lemma levelOfType_not_county ty : levelOfType ty <> county.
Proof.
  unfold levelOfType.
  repeat match goal with |- context [if ?b then _ else _] => destruct b end;
    discriminate.
Qed.

Lemma subcountyRecord_not_county row r :
  subcountyRecord row = Ok (Some r) -> is_county (geoLevel r) = false.
Proof.
  unfold subcountyRecord. destruct (truthy (cell row "GEO id2")); [|discriminate].
  unfold subcountyLevel.
  destruct (truthy (cell row "Type")) eqn:Et; simpl.
  - destruct (cell row "Type") as [| | |z|s]; simpl; try discriminate.
    intros [= <-]. simpl.
    pose proof (levelOfType_not_county s). destruct (levelOfType s); simpl; congruence.
  - intros [= <-]. simpl. now destruct (String.length _ =? 11)%nat.
Qed.

Lemma countyRecord_county row r :
  countyRecord row = Some r -> is_county (geoLevel r) = true.
Proof.
  unfold countyRecord. destruct (truthy _); [|discriminate]. now intros [= <-].
Qed.

Lemma countiesOf_app l1 l2 : countiesOf (l1 ++ l2) = countiesOf l1 ++ countiesOf l2.
Proof. apply filter_app. Qed.

Lemma countiesOf_countyRecords wb : countiesOf (countyRecords wb) = countyRecords wb.
Proof.
  unfold countyRecords. destruct (wb !! "County") as [rows|]; [|reflexivity].
  induction rows as [|row rows IH]; [reflexivity|].
  change (omap countyRecord (row :: rows))
    with (match countyRecord row with
          | Some r => r :: omap countyRecord rows
          | None => omap countyRecord rows
          end).
  destruct (countyRecord row) as [r|] eqn:E; [|exact IH].
  rewrite countiesOf_cons, (countyRecord_county row r E). now rewrite IH.
Qed.

Lemma countiesOf_subcountyEmitted rows : countiesOf (subcountyEmitted rows) = [].
Proof.
  induction rows as [|row rows IH]; [reflexivity|].
  change (subcountyEmitted (row :: rows))
    with (match (match subcountyRecord row with Ok o => o | Throw _ => None end) with
          | Some r => r :: subcountyEmitted rows
          | None => subcountyEmitted rows
          end).
  destruct (subcountyRecord row) as [[r|]|e] eqn:E; try exact IH.
  rewrite countiesOf_cons, (subcountyRecord_not_county row r E). exact IH.
Qed.

Lemma countiesOf_recordsOf f : countiesOf (recordsOf f) = countyRecordsOf f.
Proof.
  unfold recordsOf, countyRecordsOf. destruct (readFile f) as [wb|]; [|reflexivity].
  unfold fileRecords.
  now rewrite countiesOf_app, countiesOf_countyRecords, countiesOf_subcountyEmitted, app_nil_r.
Qed.

Lemma countiesOf_concat files :
  countiesOf (concat (recordsOf <$> files)) = concat (countyRecordsOf <$> files).
Proof.
  induction files as [|f files IH]; [reflexivity|].
  rewrite !fmap_cons. simpl. now rewrite countiesOf_app, countiesOf_recordsOf, IH.
Qed.

(** X7: a record of a Subcounty sheet is never county-level, whatever its
    [Type] says, and a record of a County sheet always is: the
    county-level records of the database, the ones the rollups and the
    ranking are computed from, are exactly the records of the County
    sheets. *)
Theorem county_level_is_county_sheet (dir : list InputFile) :
  Forall clean (excelFiles dir) ->
  exists db, masterDatabase dir = Ok db /\
    countiesOf db = concat (countyRecordsOf <$> excelFiles dir) /\
    (forall row r, subcountyRecord row = Ok (Some r) -> geoLevel r <> county) /\
    (forall row r, countyRecord row = Some r -> geoLevel r = county).
Proof.
  intros H. eexists. split; [apply (masterDatabase_rec dir H)|].
  split; [apply countiesOf_concat|]. split.
  - intros row r Hr Hc. apply subcountyRecord_not_county in Hr. now rewrite Hc in Hr.
  - intros row r Hr. apply countyRecord_county in Hr. now destruct (geoLevel r).
Qed.

Lemma county_level_is_county_sheet_witness :
  exists db, masterDatabase twoFiles = Ok db /\
    countiesOf db = concat (countyRecordsOf <$> excelFiles twoFiles).
Proof.
  destruct (county_level_is_county_sheet twoFiles twoFiles_clean) as (db & H1 & H2 & _).
  exists db. split; assumption.
Defined.

End SheetLevels.

(* ===================================================================== *)
(** ** More on the report *)
(* ===================================================================== *)

Section ReportFacts.

Import Samples.

Lemma rankable_county r : rankable r = true -> is_county (geoLevel r) = true.
Proof. unfold rankable. now intros [H _]%andb_true_iff. Qed.

Lemma filter_rankable_countiesOf db :
  filter (fun r => Is_true (rankable r)) (countiesOf db) =
  filter (fun r => Is_true (rankable r)) db.
Proof.
  induction db as [|r db IH]; [reflexivity|].
  rewrite countiesOf_cons. destruct (is_county (geoLevel r)) eqn:E.
  - rewrite !filter_cons, IH. reflexivity.
  - rewrite IH, filter_cons_False; [reflexivity|].
    intros H%Is_true_true%rankable_county. congruence.
Qed.

Lemma forEachM_accumulate_countiesOf db : forall acc,
  forEachM accumulate (countiesOf db) acc = forEachM accumulate db acc.
Proof.
  induction db as [|r db IH]; intros acc; [reflexivity|].
  rewrite countiesOf_cons. destruct (is_county (geoLevel r)) eqn:E.
  - rewrite !forEachM_cons. destruct (accumulate acc r); [apply IH | reflexivity].
  - rewrite forEachM_cons, (accumulate_other acc r E). apply IH.
Qed.

(** X8: the whole outcome of the aggregation, report or exception, is the
    outcome on the county-level records alone: records of other levels
    change neither the rollups nor the two rankings nor whether it
    throws. *)
Theorem aggregate_ignores_other_levels (db : list GeoRecord) :
  aggregate db = aggregate (countiesOf db).
Proof.
  unfold aggregate, sortedByRate.
  now rewrite forEachM_accumulate_countiesOf, filter_rankable_countiesOf.
Qed.

Lemma sortedByRate_length db :
  length (sortedByRate db) = length (filter (fun r => Is_true (rankable r)) db).
Proof. unfold sortedByRate. now rewrite sortBy_perm. Qed.

(** X9: each of the two rankings has as many entries as there are
    county-level records with a positive combined rate, at most 10; with 10
    such records or fewer the lowest list is the highest list backwards. *)
Theorem extremes_lengths (db : list GeoRecord) (agg : AggregateReport) :
  aggregate db = Ok agg ->
  let ranked := length (filter (fun r => Is_true (rankable r)) db) in
  length (highestCombinedRate agg) = Nat.min 10 ranked /\
  length (lowestCombinedRate agg) = Nat.min 10 ranked /\
  ((ranked <= 10)%nat -> lowestCombinedRate agg = reverse (highestCombinedRate agg)).
Proof.
  intros H. apply aggregate_Ok in H as (acc & _ & ->). cbv zeta.
  cbn [highestCombinedRate lowestCombinedRate].
  rewrite <- sortedByRate_length. unfold sliceLast.
  rewrite !length_fmap, length_reverse, length_take, length_drop.
  split; [lia|]. split; [lia|].
  intros Hle. rewrite take_ge by lia.
  replace (length (sortedByRate db) - 10)%nat with 0%nat by lia.
  now rewrite drop_0, fmap_reverse.
Qed.

Lemma extremes_lengths_witness :
  exists agg, aggregate fourCounties = Ok agg /\
    lowestCombinedRate agg = reverse (highestCombinedRate agg).
Proof.
  destruct (aggregate fourCounties) as [agg|] eqn:E; [|vm_compute in E; discriminate].
  exists agg. split; [reflexivity|].
  destruct (extremes_lengths fourCounties agg E) as (_ & _ & H).
  apply H. vm_compute. lia.
Defined.

Lemma num_ltb_irrefl x : num_ltb x x = false.
Proof.
  destruct x as [|s|q]; simpl; [reflexivity | now destruct s |].
  apply negb_false_iff, Qle_bool_iff, Qle_refl.
Qed.

Lemma sortedByRate_sorted db :
  StronglySorted (notAfter placedAfter) (sortedByRate db).
Proof.
  unfold sortedByRate.
  apply (sortBy_sorted placedAfter (fun r => rateOf r <> NaN)).
  - intros x y _ _. apply num_ltb_asym.
  - intros x y z. apply num_ltb_negtrans.
  - apply Forall_forall. intros r [Hr _]%list_elem_of_filter.
    apply rankable_not_NaN. now apply Is_true_true.
Qed.

Lemma sortedByRate_elem db x :
  x ∈ sortedByRate db <-> x ∈ db /\ rankable x = true.
Proof.
  unfold sortedByRate. rewrite sortBy_perm, list_elem_of_filter.
  split; intros [H1 H2]; split; auto; now apply Is_true_true.
Qed.

Lemma StronglySorted_last {A} (R : A -> A -> Prop) l x y :
  StronglySorted R l -> last l = Some y -> x ∈ l -> x = y \/ R x y.
Proof.
  induction 1 as [|a l Hs IH Ha]; intros Hlast Hin; [inversion Hin|].
  destruct l as [|b l].
  - simpl in Hlast. injection Hlast as <-. apply elem_of_cons in Hin as [-> | Hin]; [auto | inversion Hin].
  - change (last (a :: b :: l)) with (last (b :: l)) in Hlast.
    apply elem_of_cons in Hin as [-> | Hin]; [|now apply IH].
    right. rewrite Forall_forall in Ha. apply Ha.
    apply list_elem_of_In. clear -Hlast. apply list_elem_of_In.
    revert b Hlast. induction l as [|c l IHl]; intros b Hlast.
    + simpl in Hlast. injection Hlast as <-. left.
    + right. apply IHl. exact Hlast.
Qed.

(** X10: the first entry of the highest list carries a combined rate that
    no ranked county exceeds, and the first entry of the lowest list one
    that no ranked county is below. *)
Theorem extremes_first_entries (db : list GeoRecord) (agg : AggregateReport) (x : GeoRecord) :
  aggregate db = Ok agg -> x ∈ db -> rankable x = true ->
  (forall top rest, highestCombinedRate agg = top :: rest ->
     num_ltb (rateNumber (Extreme.combinedRate top)) (rateOf x) = false) /\
  (forall bottom rest, lowestCombinedRate agg = bottom :: rest ->
     num_ltb (rateOf x) (rateNumber (Extreme.combinedRate bottom)) = false).
Proof.
  intros H Hin Hrank. apply aggregate_Ok in H as (acc & _ & ->). simpl.
  pose proof (sortedByRate_sorted db) as Hs.
  assert (Hx : x ∈ sortedByRate db) by now apply sortedByRate_elem.
  split.
  - intros top rest Htop. destruct (sortedByRate db) as [|t l] eqn:E; [inversion Hx|].
    change (take 10 (t :: l)) with (t :: take 9 l) in Htop.
    rewrite fmap_cons in Htop. injection Htop as <- _. simpl.
    apply StronglySorted_inv in Hs as [_ Ht].
    apply elem_of_cons in Hx as [-> | Hx]; [apply num_ltb_irrefl|].
    rewrite Forall_forall in Ht. apply (Ht x), Hx.
  - intros bottom rest Hbot.
    assert (Hlast : exists b, last (sortedByRate db) = Some b /\ bottom = extreme b).
    { unfold sliceLast in Hbot. remember (sortedByRate db) as l eqn:El. clear El Hs Hx.
      destruct (last l) as [b|] eqn:Eb.
      - exists b. split; [reflexivity|].
        apply last_Some in Eb as [l' ->].
        rewrite drop_app_le in Hbot by (rewrite length_app; simpl; lia).
        rewrite reverse_app, reverse_singleton, fmap_app in Hbot.
        change (extreme <$> [b]) with [extreme b] in Hbot.
        now injection Hbot as <- _.
      - apply last_None in Eb. subst l. discriminate. }
    destruct Hlast as (b & Hb & ->). simpl.
    destruct (StronglySorted_last _ _ x b Hs Hb Hx) as [-> | Hxb].
    + apply num_ltb_irrefl.
    + exact Hxb.
Qed.

Lemma extremes_first_entries_witness :
  exists agg, aggregate fourCounties = Ok agg /\
    forall top rest, highestCombinedRate agg = top :: rest ->
      num_ltb (rateNumber (Extreme.combinedRate top))
              (rateOf (countyOf "Alabama" "A" 100 4 6)) = false.
Proof.
  destruct (aggregate fourCounties) as [agg|] eqn:E; [|vm_compute in E; discriminate].
  exists agg. split; [reflexivity|].
  destruct (extremes_first_entries fourCounties agg (countyOf "Alabama" "A" 100 4 6) E)
    as [H _]; [apply list_elem_of_here | vm_compute; reflexivity | exact H].
Defined.

End ReportFacts.

(* ===================================================================== *)
(** ** Rollups: states and order *)
(* ===================================================================== *)

Section RollupFacts.

Import Samples.











End RollupFacts.

(* ===================================================================== *)
(** ** Rates as percentages *)
(* ===================================================================== *)

Section RateFacts.

Import Samples.

Lemma emitted_rates row r :
  countyRecord row = Some r \/ subcountyRecord row = Ok (Some r) ->
  povertyRate r = r_poverty (calcRates (totalHouseholds r) (povertyHouseholds r) (aliceHouseholds r)) /\
  aliceRate r = r_alice (calcRates (totalHouseholds r) (povertyHouseholds r) (aliceHouseholds r)) /\
  combinedRate r = r_combined (calcRates (totalHouseholds r) (povertyHouseholds r) (aliceHouseholds r)).
Proof.
  intros [Hc | Hs]; [eapply countyRecord_rates | eapply subcountyRecord_rates]; eassumption.
Qed.

Lemma calcRates_positive total poverty alice :
  0 < total ->
  calcRates total poverty alice =
    {| r_poverty := RateStr (percent poverty total);
       r_alice := RateStr (percent alice total);
       r_combined := RateStr (percent (poverty + alice) total) |}.
Proof.
  intros H. unfold calcRates. destruct (Z.ltb_spec 0 total); [reflexivity | lia].
Qed.

Lemma nearestTenth_range n num total :
  0 < total -> 0 <= num <= total -> nearestTenth n num total -> 0 <= n <= 1000.
Proof. unfold nearestTenth. intros Ht Hn H. nia. Qed.

(** X13: for a record whose poverty and ALICE households together do not
    exceed its households (counts within the bounds of exact arithmetic),
    each printed rate lies between 0.0 and 100.0, and the printed combined
    rate differs from the sum of the printed poverty and ALICE rates by at
    most one tenth. *)
Theorem rates_are_percentages (row : RawRow) (r : GeoRecord) :
  countyRecord row = Some r \/ subcountyRecord row = Ok (Some r) ->
  0 < totalHouseholds r < 2 ^ 53 ->
  0 <= povertyHouseholds r -> 0 <= aliceHouseholds r ->
  povertyHouseholds r + aliceHouseholds r <= totalHouseholds r ->
  povertyHouseholds r + aliceHouseholds r <= 10 ^ 12 ->
  exists n1 n2 n3,
    povertyRate r = RateStr (FxDec false n1) /\
    aliceRate r = RateStr (FxDec false n2) /\
    combinedRate r = RateStr (FxDec false n3) /\
    0 <= n1 <= 1000 /\ 0 <= n2 <= 1000 /\ 0 <= n3 <= 1000 /\
    Z.abs (n3 - (n1 + n2)) <= 1.
Proof.
  intros Hemit Ht Hp Ha Hsum Hbig.
  destruct (emitted_rates row r Hemit) as (-> & -> & ->).
  rewrite calcRates_positive by lia. simpl.
  destruct (percent_nearest (povertyHouseholds r) (totalHouseholds r)) as (n1 & -> & H1); [lia | lia |].
  destruct (percent_nearest (aliceHouseholds r) (totalHouseholds r)) as (n2 & -> & H2); [lia | lia |].
  destruct (percent_nearest (povertyHouseholds r + aliceHouseholds r) (totalHouseholds r))
    as (n3 & -> & H3); [lia | lia |].
  exists n1, n2, n3. split; [reflexivity|]. split; [reflexivity|]. split; [reflexivity|].
  fold (nearestTenth n1 (povertyHouseholds r) (totalHouseholds r)) in H1.
  fold (nearestTenth n2 (aliceHouseholds r) (totalHouseholds r)) in H2.
  fold (nearestTenth n3 (povertyHouseholds r + aliceHouseholds r) (totalHouseholds r)) in H3.
  split; [eapply nearestTenth_range; [| | exact H1]; lia|].
  split; [eapply nearestTenth_range; [| | exact H2]; lia|].
  split; [eapply nearestTenth_range; [| | exact H3]; lia|].
  unfold nearestTenth in *. nia.
Qed.

Lemma rates_are_percentages_witness :
  exists r n3, countyRecord autauga = Some r /\
    combinedRate r = RateStr (FxDec false n3) /\ 0 <= n3 <= 1000.
Proof.
  destruct (countyRecord autauga) as [r|] eqn:E; [|vm_compute in E; discriminate].
  assert (Hr : totalHouseholds r = 1000 /\ povertyHouseholds r = 150 /\ aliceHouseholds r = 300).
  { vm_compute in E. injection E as <-. repeat split. }
  destruct Hr as (Ht & Hp & Ha).
  destruct (rates_are_percentages autauga r) as (n1 & n2 & n3 & _ & _ & H3 & _ & _ & R3 & _);
    [left; exact E | rewrite Ht; lia | rewrite Hp; lia | rewrite Ha; lia
    | rewrite Hp, Ha, Ht; lia | rewrite Hp, Ha; lia |].
  exists r, n3. auto.
Defined.

Lemma positive_tenths n : num_ltb (Fin 0) (Fin (n # 10)) = (0 <? n).
Proof.
  simpl. unfold Qle_bool. simpl. rewrite Z.mul_1_r.
  destruct (Z.leb_spec n 0), (Z.ltb_spec 0 n); simpl; try reflexivity; lia.
Qed.

(** X14: a county row takes part in the ranking only if its combined rate
    prints as 0.1 or more: with no households, or with a combined share
    below 0.05 percent, it is left out although it may have households in
    poverty; with a share above 0.05 percent it is ranked. *)
Theorem ranking_leaves_out_zero_rates (row : RawRow) (r : GeoRecord) :
  countyRecord row = Some r ->
  totalHouseholds r < 2 ^ 53 ->
  0 <= povertyHouseholds r -> 0 <= aliceHouseholds r ->
  povertyHouseholds r + aliceHouseholds r <= 10 ^ 12 ->
  (totalHouseholds r <= 0 -> rankable r = false) /\
  (2000 * (povertyHouseholds r + aliceHouseholds r) < totalHouseholds r ->
   rankable r = false) /\
  (0 < totalHouseholds r < 2000 * (povertyHouseholds r + aliceHouseholds r) ->
   rankable r = true).
Proof.
  intros Hemit Ht Hp Ha Hbig.
  destruct (countyRecord_rates row r Hemit) as (_ & _ & Hc).
  pose proof (countyRecord_county row r Hemit) as Hcounty.
  unfold rankable. rewrite Hcounty, Hc, andb_true_l.
  split.
  - intros Hle. now rewrite calcRates_guard.
  - assert (Hpos : 0 < totalHouseholds r ->
        exists n3, num_ltb (Fin 0) (rateNumber (r_combined
          (calcRates (totalHouseholds r) (povertyHouseholds r) (aliceHouseholds r)))) = (0 <? n3) /\
          nearestTenth n3 (povertyHouseholds r + aliceHouseholds r) (totalHouseholds r)).
    { intros H0. rewrite calcRates_positive by lia. simpl.
      destruct (percent_nearest (povertyHouseholds r + aliceHouseholds r) (totalHouseholds r))
        as (n3 & -> & H3); [lia | lia |].
      exists n3. split; [apply positive_tenths | exact H3]. }
    split.
    + intros Hsmall. destruct Hpos as (n3 & -> & H3); [lia|].
      apply Z.ltb_ge. unfold nearestTenth in H3. nia.
    + intros Hlarge. destruct Hpos as (n3 & -> & H3); [lia|].
      apply Z.ltb_lt. unfold nearestTenth in H3. nia.
Qed.

Lemma ranking_leaves_out_zero_rates_witness :
  exists r, countyRecord emptyCounty = Some r /\ rankable r = false.
Proof.
  destruct (countyRecord emptyCounty) as [r|] eqn:E; [|vm_compute in E; discriminate].
  assert (Hr : totalHouseholds r = 0 /\ povertyHouseholds r = 0 /\ aliceHouseholds r = 0).
  { vm_compute in E. injection E as <-. repeat split. }
  destruct Hr as (Ht & Hp & Ha).
  destruct (ranking_leaves_out_zero_rates emptyCounty r) as (H & _);
    [exact E | rewrite Ht; lia | rewrite Hp; lia | rewrite Ha; lia | rewrite Hp, Ha; lia |].
  exists r. split; [reflexivity|]. apply H. rewrite Ht. lia.
Defined.



End RateFacts.

(* ===================================================================== *)
(** ** Integers through [toString] and [parseInt] *)
(* ===================================================================== *)

Section ParseFacts.

Import Samples.

(** Reading the digits of a numeral from the left, starting from [acc]. *)
Lemma digits_prefix_uint d : forall acc,
  d <> Decimal.Nil ->
  digits_prefix 10 acc (NilEmpty.string_of_uint d) =
  Some (default 0 acc * 10 ^ Z.of_N (DecimalPos.Unsigned.usize d)
        + Z.of_N (DecimalPos.Unsigned.of_lu (Decimal.rev d))).
Proof.
  induction d as [|d IH|d IH|d IH|d IH|d IH|d IH|d IH|d IH|d IH|d IH]; intros acc Hd;
    [congruence|..];
    cbn [NilEmpty.string_of_uint digits_prefix];
    match goal with |- context [digit_val 10 ?c] =>
      let v := eval vm_compute in (digit_val 10 c) in change (digit_val 10 c) with v end;
    cbv iota;
    (assert (Hn : d = Decimal.Nil \/ d <> Decimal.Nil)
       by (destruct d; auto; right; discriminate));
    (destruct Hn as [-> | Hn];
     [ cbn; f_equal; lia
     | rewrite IH by assumption; f_equal;
       unfold Decimal.rev at 2; cbn [Decimal.revapp];
       match goal with |- context [Decimal.revapp d (?c Decimal.Nil)] =>
         rewrite (DecimalPos.Unsigned.of_lu_revapp d (c Decimal.Nil)) end;
       cbn [DecimalPos.Unsigned.usize];
       rewrite N2Z.inj_succ, Z.pow_succ_r by lia;
       rewrite N2Z.inj_add, N2Z.inj_mul, N2Z.inj_pow;
       match goal with |- context [Z.of_N (DecimalPos.Unsigned.of_lu ?x)] =>
         match x with
         | Decimal.rev d => fail 1
         | _ => let v := eval vm_compute in (Z.of_N (DecimalPos.Unsigned.of_lu x)) in
                change (Z.of_N (DecimalPos.Unsigned.of_lu x)) with v
         end end;
       change (Z.of_N 10) with 10; cbn [default]; unfold id; ring ]).
Qed.

(** The digits of a positive number read back as that number. *)
Lemma digits_prefix_positive (p : positive) :
  digits_prefix 10 None (NilEmpty.string_of_uint (Pos.to_uint p)) = Some (Z.pos p).
Proof.
  rewrite digits_prefix_uint by apply DecimalPos.Unsigned.to_uint_nonnil.
  cbn [default]. rewrite Z.mul_0_l, Z.add_0_l.
  rewrite <- DecimalPos.Unsigned.of_uint_alt, DecimalPos.Unsigned.of_to. reflexivity.
Qed.

(** A numeral begins with a digit and has no [x] after it: [parseInt]
    skips nothing, finds no sign and reads it in radix 10. *)
Lemma parseInt_string_uint d :
  d <> Decimal.Nil ->
  parseInt_string (NilEmpty.string_of_uint d) =
  digits_prefix 10 None (NilEmpty.string_of_uint d).
Proof.
  intros Hd. destruct d as [|d|d|d|d|d|d|d|d|d|d]; [congruence|..];
    destruct d; cbn [NilEmpty.string_of_uint];
    unfold parseInt_string; cbn [skip_space];
    match goal with |- context [is_space ?c] =>
      change (is_space c) with false end; cbv iota beta;
    match goal with |- match ?x with _ => _ end = ?x => destruct x; reflexivity end.
Qed.

Lemma parseInt_string_neg d :
  d <> Decimal.Nil ->
  parseInt_string (String "-" (NilEmpty.string_of_uint d)) =
  match digits_prefix 10 None (NilEmpty.string_of_uint d) with
  | Some v => Some (- v)
  | None => None
  end.
Proof.
  intros Hd. destruct d as [|d|d|d|d|d|d|d|d|d|d]; [congruence|..];
    destruct d; reflexivity.
Qed.

Lemma string_of_uint_nonnil d :
  d <> Decimal.Nil -> NilZero.string_of_uint d = NilEmpty.string_of_uint d.
Proof. destruct d; [congruence | reflexivity..]. Qed.

Lemma parseInt_JNum z : parseInt (JNum z) = Some z.
Proof.
  unfold parseInt, to_string, string_of_Z.
  destruct z as [|p|p]; [reflexivity|..]; cbn [Z.to_int NilZero.string_of_int].
  - rewrite string_of_uint_nonnil by apply DecimalPos.Unsigned.to_uint_nonnil.
    rewrite parseInt_string_uint by apply DecimalPos.Unsigned.to_uint_nonnil.
    apply digits_prefix_positive.
  - rewrite string_of_uint_nonnil by apply DecimalPos.Unsigned.to_uint_nonnil.
    rewrite parseInt_string_neg by apply DecimalPos.Unsigned.to_uint_nonnil.
    rewrite digits_prefix_positive. reflexivity.
Qed.

(** X16: [parseInt(String(z))] is [z] for an integer [z] that [toString]
    prints in decimal digits (below 10^21 in magnitude): a numeric cell
    holding an integer loses nothing on its way through [parseInt]. *)
Theorem parseInt_reads_back_integer (z : Z) :
  Z.abs z < 10 ^ 21 ->
  parseInt_string (to_string (JNum z)) = Some z /\
  parseInt_or_0 (JNum z) = z /\
  parseInt_or_null (JNum z) = (if z =? 0 then JNull else JNum z).
Proof.
  intros _. pose proof (parseInt_JNum z) as H.
  split; [exact H|]. unfold parseInt_or_0, parseInt_or_null. rewrite H.
  split; reflexivity.
Qed.

Lemma parseInt_reads_back_integer_witness :
  parseInt_string (to_string (JNum 58805)) = Some 58805 /\
  parseInt_or_0 (JNum 58805) = 58805 /\
  parseInt_or_null (JNum 58805) = JNum 58805.
Proof. apply (parseInt_reads_back_integer 58805). reflexivity. Defined.

(** X17: a row whose four household columns hold integers gives a record,
    county or subcounty, with exactly these four counts. *)
Theorem integer_counts_are_kept (row : RawRow) (r : GeoRecord) (t p a b : Z) :
  countyRecord row = Some r \/ subcountyRecord row = Ok (Some r) ->
  cell row "Households" = JNum t ->
  cell row "Poverty Households" = JNum p ->
  cell row "ALICE Households" = JNum a ->
  cell row "Above ALICE Households" = JNum b ->
  Z.abs t < 10 ^ 21 -> Z.abs p < 10 ^ 21 -> Z.abs a < 10 ^ 21 -> Z.abs b < 10 ^ 21 ->
  totalHouseholds r = t /\ povertyHouseholds r = p /\
  aliceHouseholds r = a /\ aboveAliceHouseholds r = b.
Proof.
  intros Hr Ht Hp Ha Hb _ _ _ _.
  assert (P : forall z, parseInt_or_0 (JNum z) = z)
    by (intros z; unfold parseInt_or_0; now rewrite parseInt_JNum).
  destruct Hr as [Hr | Hr].
  - unfold countyRecord in Hr. destruct (truthy (cell row "GEO id2")); [|discriminate].
    injection Hr as <-. cbn. rewrite Ht, Hp, Ha, Hb, !P. auto.
  - unfold subcountyRecord in Hr. destruct (truthy (cell row "GEO id2")); [|discriminate].
    destruct (subcountyLevel _ _); [|discriminate].
    cbn in Hr. injection Hr as <-. cbn. rewrite Ht, Hp, Ha, Hb, !P. auto.
Qed.

Lemma integer_counts_are_kept_witness :
  exists r, countyRecord autauga = Some r /\
    totalHouseholds r = 1000 /\ povertyHouseholds r = 150 /\
    aliceHouseholds r = 300 /\ aboveAliceHouseholds r = 550.
Proof.
  destruct (countyRecord autauga) as [r|] eqn:E; [|vm_compute in E; discriminate].
  exists r. split; [reflexivity|].
  apply (integer_counts_are_kept autauga r 1000 150 300 550);
    [left; exact E | reflexivity .. ].
Defined.

End ParseFacts.

(* ===================================================================== *)
(** ** The counters of [geoStats] *)
(* ===================================================================== *)

Section StatisticsFacts.

Import Statistics Samples.

Lemma bump_lookup k o k' :
  bump k o !! k' = if decide (k = k') then Some (default 0 (o !! k) + 1) else o !! k'.
Proof.
  unfold bump. destruct (decide (k = k')) as [->|Hne].
  - apply lookup_insert_eq.
  - now apply lookup_insert_ne.
Qed.

Lemma levelCount_snoc k db r :
  levelCount k (db ++ [r]) =
  levelCount k db + (if decide (geoLevel_string (geoLevel r) = k) then 1 else 0).
Proof.
  unfold levelCount. rewrite filter_app, length_app, Nat2Z.inj_add. f_equal.
  destruct (decide (geoLevel_string (geoLevel r) = k)) as [H|H].
  - rewrite filter_cons_True by exact H. reflexivity.
  - rewrite filter_cons_False by exact H. reflexivity.
Qed.

Lemma levelCount_nonneg k db : 0 <= levelCount k db.
Proof. unfold levelCount. lia. Qed.

Lemma counted_push r st :
  counted st -> counted (push (geoLevel_string (geoLevel r)) r st).
Proof.
  intros [Ht Hl]. split.
  - cbn. rewrite Ht, length_app. cbn. lia.
  - intros k. cbn [push snd fst byGeoLevel]. rewrite bump_lookup, levelCount_snoc.
    pose proof (levelCount_nonneg k st.1) as Hk.
    destruct (decide (geoLevel_string (geoLevel r) = k)) as [<-|Hne].
    + rewrite Hl.
      destruct (levelCount (geoLevel_string (geoLevel r)) st.1 =? 0) eqn:E.
      * apply Z.eqb_eq in E. rewrite E. reflexivity.
      * apply Z.eqb_neq in E. cbn [default].
        destruct (_ + 1 =? 0) eqn:E'; [apply Z.eqb_eq in E'; lia | reflexivity].
    + rewrite Z.add_0_r. apply Hl.
Qed.

Lemma foldl_countyRow rows : forall st,
  (foldl countyRow st rows).1 = st.1 ++ omap countyRecord rows /\
  (counted st -> counted (foldl countyRow st rows)) /\
  byState (foldl countyRow st rows).2 = byState st.2.
Proof.
  induction rows as [|row rows IH]; intros st.
  - cbn. rewrite app_nil_r. auto.
  - cbn [foldl]. destruct (IH (countyRow st row)) as (I1 & I2 & I3).
    change (omap countyRecord (row :: rows)) with
      (match countyRecord row with
       | Some r => r :: omap countyRecord rows
       | None => omap countyRecord rows
       end).
    unfold countyRow in *. destruct (countyRecord row) as [r|] eqn:E.
    + rewrite I1, I3. cbn [push fst snd byState]. rewrite <- app_assoc.
      split; [reflexivity|]. split; [|reflexivity].
      intros Hc. apply I2.
      pose proof (countyRecord_county _ _ E) as Hl.
      pose proof (counted_push r st Hc) as Hp.
      destruct (geoLevel r); try discriminate Hl. exact Hp.
    + auto.
Qed.

Lemma forEachM_subcountyRow rows : forall st,
  match forEachM subcountyRow rows st with
  | Ok st' => forEachM pushSubcounty rows st.1 = Ok st'.1 /\
              (counted st -> counted st') /\
              byState st'.2 = byState st.2
  | Throw e => forEachM pushSubcounty rows st.1 = Throw e
  end.
Proof.
  induction rows as [|row rows IH]; intros st.
  - cbn. auto.
  - cbn [forEachM]. destruct (subcountyRecord row) as [o|e] eqn:E.
    + set (st1 := match o with
                  | Some r => push (geoLevel_string (geoLevel r)) r st
                  | None => st
                  end).
      assert (R1 : subcountyRow st row = Ok st1)
        by (unfold subcountyRow; rewrite E; reflexivity).
      assert (R2 : pushSubcounty st.1 row = Ok (st.1 ++ option_list o))
        by (unfold pushSubcounty; rewrite E; reflexivity).
      rewrite R1, R2. cbn [mbind result_bind].
      assert (H1 : st1.1 = st.1 ++ option_list o) by
        (subst st1; destruct o; cbn; [reflexivity | now rewrite app_nil_r]).
      assert (H2 : counted st -> counted st1) by
        (subst st1; destruct o; [apply counted_push | auto]).
      assert (H3 : byState st1.2 = byState st.2) by (subst st1; destruct o; reflexivity).
      specialize (IH st1). rewrite <- H1.
      destruct (forEachM subcountyRow rows st1); [|exact IH].
      destruct IH as (I1 & I2 & I3). rewrite I3. auto.
    + assert (R1 : subcountyRow st row = Throw e)
        by (unfold subcountyRow; rewrite E; reflexivity).
      assert (R2 : pushSubcounty st.1 row = Throw e)
        by (unfold pushSubcounty; rewrite E; reflexivity).
      rewrite R1, R2. reflexivity.
Qed.

Lemma fileBody_processFile st f :
  match fileBody st f with
  | Ok st' => processFile st.1 f = Ok st'.1 /\
              (counted st -> counted st') /\
              byState st'.2 =
                setCount (stateName (fileName f))
                         (recordsOfState (stateName (fileName f)) st'.1) (byState st.2)
  | Throw e => processFile st.1 f = Throw e
  end.
Proof.
  unfold fileBody, processFile. destruct (readFile f) as [wb|]; [|reflexivity].
  unfold subcountyRecords, countyRecords.
  set (st1 := match wb !! "County" with Some rows => foldl countyRow st rows | None => st end).
  assert (H : st1.1 = st.1 ++ match wb !! "County" with
                               | Some rows => omap countyRecord rows
                               | None => []
                               end
              /\ (counted st -> counted st1) /\ byState st1.2 = byState st.2).
  { subst st1. destruct (wb !! "County") as [rows|].
    - apply foldl_countyRow.
    - rewrite app_nil_r. auto. }
  destruct H as (H1 & H2 & H3). rewrite <- H1.
  destruct (wb !! "Subcounty") as [rows|].
  - pose proof (forEachM_subcountyRow rows st1) as Hs.
    destruct (forEachM subcountyRow rows st1) as [st2|e]; cbn [mbind result_bind];
      [|exact Hs].
    destruct Hs as (S1 & S2 & S3). cbn [fst snd byState].
    split; [exact S1|]. split; [|now rewrite S3, H3].
    intros Hc. specialize (S2 (H2 Hc)). destruct S2 as [T L]. split; assumption.
  - cbn [mbind result_bind fst snd byState]. split; [reflexivity|].
    split; [|now rewrite H3].
    intros Hc. destruct (H2 Hc) as [T L]. split; assumption.
Qed.

Lemma forEachM_fileBody files : forall st,
  match forEachM fileBody files st with
  | Ok st' => forEachM processFile files st.1 = Ok st'.1 /\ (counted st -> counted st')
  | Throw e => forEachM processFile files st.1 = Throw e
  end.
Proof.
  induction files as [|f files IH]; intros st.
  - cbn. auto.
  - cbn [forEachM]. pose proof (fileBody_processFile st f) as Hf.
    destruct (fileBody st f) as [st1|e]; cbn [mbind result_bind].
    + destruct Hf as (F1 & F2 & _). rewrite F1. cbn [mbind result_bind].
      specialize (IH st1). destruct (forEachM fileBody files st1); [|exact IH].
      destruct IH as [I1 I2]. auto.
    + rewrite Hf. reflexivity.
Qed.

Lemma counted_empty : counted ([], emptyStats).
Proof. split; [reflexivity|]. intros k. cbn. apply lookup_empty. Qed.

(** X18: the loop with the counters builds the same array, and throws the
    same exception, as the loop without them. *)
Theorem counters_do_not_change_the_database (dir : list InputFile) :
  match run dir with
  | Ok st => masterDatabase dir = Ok st.1
  | Throw e => masterDatabase dir = Throw e
  end.
Proof.
  unfold run, masterDatabase.
  pose proof (forEachM_fileBody (excelFiles dir) ([], emptyStats)) as H.
  destruct (forEachM fileBody _ _); [apply H | exact H].
Qed.

(** X19: when the loop ends, [totalRecords] is the length of
    [masterDatabase], and [byGeoLevel] has exactly the level names that
    occur in it, each with the number of records of that level. *)
Theorem counters_agree_with_database (dir : list InputFile) (db : list GeoRecord)
    (g : GeoStats) :
  run dir = Ok (db, g) ->
  totalRecords g = Z.of_nat (length db) /\
  forall k, byGeoLevel g !! k =
            if levelCount k db =? 0 then None else Some (levelCount k db).
Proof.
  intros H. unfold run in H.
  pose proof (forEachM_fileBody (excelFiles dir) ([], emptyStats)) as Hf.
  rewrite H in Hf. destruct Hf as [_ Hc]. exact (Hc counted_empty).
Qed.

Lemma counters_agree_with_database_witness :
  exists db g, run twoFiles = Ok (db, g) /\
    totalRecords g = 2 /\ byGeoLevel g !! "county" = Some 1 /\
    byGeoLevel g !! "cdp" = Some 1 /\ byGeoLevel g !! "tract" = None.
Proof.
  destruct (run twoFiles) as [[db g]|] eqn:E; [|vm_compute in E; discriminate].
  exists db, g. split; [reflexivity|].
  destruct (counters_agree_with_database twoFiles db g E) as [Ht Hl].
  rewrite Ht, !Hl. vm_compute in E. injection E as <- <-.
  vm_compute. auto.
Defined.

Lemma forEachM_app {S A} (f : S -> A -> result S) (l1 l2 : list A) : forall s,
  forEachM f (l1 ++ l2) s = (s' ← forEachM f l1 s; forEachM f l2 s').
Proof.
  induction l1 as [|x l1 IH]; intros s; [reflexivity|].
  cbn [app forEachM]. destruct (f s x); cbn [mbind result_bind]; [apply IH | reflexivity].
Qed.

(** Replacing the first underscore leaves no string that begins with
    one. *)
Lemma stateName_not_proto (file : string) : stateName file <> "__proto__".
Proof.
  unfold stateName. generalize (replaceFirst "_data.xlsx" "" file). intros s.
  destruct s as [|c r]; [discriminate|].
  cbn [replaceFirst String.prefix]. destruct (ascii_dec "_" c) as [<-|Hc].
  - destruct r; discriminate.
  - intros H. injection H as H _. congruence.
Qed.

Lemma setCount_lookup file n o k :
  setCount (stateName file) n o !! k =
  if decide (stateName file = k) then Some n else o !! k.
Proof.
  unfold setCount. pose proof (stateName_not_proto file) as Hp.
  destruct (String.eqb_spec (stateName file) "__proto__") as [E|_]; [contradiction|].
  destruct (decide (stateName file = k)) as [->|Hne].
  - apply lookup_insert_eq.
  - now apply lookup_insert_ne.
Qed.

Lemma fileBody_byState st f st' :
  fileBody st f = Ok st' ->
  forall k, byState st'.2 !! k =
            if decide (stateName (fileName f) = k)
            then Some (recordsOfState (stateName (fileName f)) st'.1)
            else byState st.2 !! k.
Proof.
  intros H k. pose proof (fileBody_processFile st f) as Hf. rewrite H in Hf.
  destruct Hf as (_ & _ & ->). apply setCount_lookup.
Qed.

Lemma forEachM_fileBody_keys files : forall st st',
  forEachM fileBody files st = Ok st' ->
  forall k, is_Some (byState st'.2 !! k) <->
            is_Some (byState st.2 !! k) \/
            exists f, f ∈ files /\ stateName (fileName f) = k.
Proof.
  induction files as [|f files IH]; intros st st' H k.
  - cbn in H. injection H as <-. split; [auto|].
    intros [?|(f & Hf & _)]; [assumption|]. now apply elem_of_nil in Hf.
  - cbn [forEachM] in H. destruct (fileBody st f) as [st1|e] eqn:E; [|discriminate].
    cbn [mbind result_bind] in H. rewrite (IH st1 st' H k).
    rewrite (fileBody_byState _ _ _ E k).
    destruct (decide (stateName (fileName f) = k)) as [Hk|Hk].
    + split; [|eauto]. intros _. right. exists f. split; [apply list_elem_of_here | exact Hk].
    + split.
      * intros [?|(f' & Hf' & E')]; [auto|]. right. exists f'.
        split; [now apply list_elem_of_further | exact E'].
      * intros [?|(f' & Hf' & E')]; [auto|]. apply elem_of_cons in Hf'.
        destruct Hf' as [->|Hf']; [contradiction|]. right. eauto.
Qed.

Lemma forEachM_fileBody_other files k : forall st st',
  forEachM fileBody files st = Ok st' ->
  Forall (fun f => stateName (fileName f) <> k) files ->
  byState st'.2 !! k = byState st.2 !! k.
Proof.
  induction files as [|f files IH]; intros st st' H Hk.
  - cbn in H. now injection H as <-.
  - cbn [forEachM] in H. destruct (fileBody st f) as [st1|e] eqn:E; [|discriminate].
    cbn [mbind result_bind] in H. inversion Hk as [|? ? Hf Hr]; subst.
    rewrite (IH st1 st' H Hr), (fileBody_byState _ _ _ E k).
    destruct (decide (stateName (fileName f) = k)); [contradiction | reflexivity].
Qed.

(** X20: when the loop ends, [byState] has one entry for each name derived
    from a processed file name, and no other: no file name gives
    [__proto__], the one key a number cannot be stored under. *)
Theorem byState_has_the_file_names (dir : list InputFile) (db : list GeoRecord)
    (g : GeoStats) (k : string) :
  run dir = Ok (db, g) ->
  (is_Some (byState g !! k) <->
   exists f, f ∈ excelFiles dir /\ stateName (fileName f) = k).
Proof.
  intros H. rewrite (forEachM_fileBody_keys _ _ _ H k). cbn.
  split; [|auto]. intros [Hs|?]; [|assumption].
  rewrite lookup_empty in Hs. now destruct Hs.
Qed.

Lemma byState_has_the_file_names_witness :
  exists db g, run twoFiles = Ok (db, g) /\
    is_Some (byState g !! "georgia") /\ ~ is_Some (byState g !! "Georgia").
Proof.
  destruct (run twoFiles) as [[db g]|] eqn:E; [|vm_compute in E; discriminate].
  exists db, g. split; [reflexivity|]. split.
  - apply (byState_has_the_file_names twoFiles db g "georgia" E).
    exists lastFile. split; [|reflexivity].
    change (excelFiles twoFiles) with [firstFile; lastFile] || vm_compute.
    apply list_elem_of_further, list_elem_of_here.
  - vm_compute in E. injection E as <- <-. vm_compute. intros [x Hx]. discriminate.
Defined.

(** X21: the entry of a file counts the records whose [state] is the
    string derived from the file name in the array as it stands when the
    file is done: records of earlier files are counted, those of later
    files are not, unless a later file gives the same name. *)
Theorem byState_counts_database_so_far (dir before after : list InputFile)
    (f : InputFile) (db : list GeoRecord) (g : GeoStats) :
  run dir = Ok (db, g) ->
  excelFiles dir = before ++ f :: after ->
  Forall (fun f' => stateName (fileName f') <> stateName (fileName f)) after ->
  exists db', forEachM processFile (before ++ [f]) [] = Ok db' /\
    byState g !! stateName (fileName f) =
    Some (recordsOfState (stateName (fileName f)) db').
Proof.
  intros H Hd Ha. unfold run in H.
  rewrite Hd in H. change (f :: after) with ([f] ++ after) in H.
  rewrite app_assoc, forEachM_app in H.
  destruct (forEachM fileBody (before ++ [f]) ([], emptyStats)) as [st1|e] eqn:E1;
    [|discriminate].
  cbn [mbind result_bind] in H.
  pose proof (forEachM_fileBody (before ++ [f]) ([], emptyStats)) as Hp.
  rewrite E1 in Hp. destruct Hp as [Hp _]. exists st1.1. split; [exact Hp|].
  change g with (db, g).2. rewrite (forEachM_fileBody_other _ _ _ _ H Ha).
  rewrite forEachM_app in E1.
  destruct (forEachM fileBody before ([], emptyStats)) as [st0|e] eqn:E0; [|discriminate].
  cbn [mbind result_bind forEachM] in E1.
  destruct (fileBody st0 f) as [st1'|e] eqn:Ef; [|discriminate].
  cbn [mbind result_bind] in E1. injection E1 as ->.
  rewrite (fileBody_byState _ _ _ Ef). now rewrite decide_True.
Qed.

Lemma byState_counts_database_so_far_witness :
  exists db g, run twoFiles = Ok (db, g) /\
    byState g !! "alabama" = Some 0 /\ length db = 2%nat.
Proof.
  destruct (run twoFiles) as [[db g]|] eqn:E; [|vm_compute in E; discriminate].
  exists db, g. split; [reflexivity|].
  destruct (byState_counts_database_so_far twoFiles [] [lastFile] firstFile db g E)
    as (db' & Hdb' & Hg).
  - reflexivity.
  - repeat constructor. vm_compute. discriminate.
  - split.
    + change (stateName (fileName firstFile)) with "alabama" in Hg. rewrite Hg.
      vm_compute in Hdb'. injection Hdb' as <-. vm_compute. reflexivity.
    + vm_compute in E. injection E as <- <-. reflexivity.
Defined.

Lemma levelCount_cons k r db :
  levelCount k (r :: db) =
  (if decide (geoLevel_string (geoLevel r) = k) then 1 else 0) + levelCount k db.
Proof.
  unfold levelCount. destruct (decide (geoLevel_string (geoLevel r) = k)) as [H|H].
  - rewrite filter_cons_True by exact H. cbn [length]. lia.
  - rewrite filter_cons_False by exact H. lia.
Qed.

Lemma levelCount_total db :
  sumZ ((fun l => levelCount (geoLevel_string l) db) <$> allLevels) = Z.of_nat (length db).
Proof.
  induction db as [|r db IH]; [reflexivity|].
  unfold allLevels in *. cbn [fmap list_fmap sumZ foldr] in *.
  rewrite !levelCount_cons. cbn [length]. rewrite Nat2Z.inj_succ, <- IH.
  destruct (geoLevel r); cbn [geoLevel_string];
    repeat match goal with
    | |- context [decide (?a = ?b)] =>
        destruct (decide (a = b)) as [?|?]; try discriminate; try congruence
    end; lia.
Qed.

(** X22: the counters of [byGeoLevel] add up to [totalRecords]: every
    record is counted under exactly one of the six level names. *)
Theorem level_counters_add_up (dir : list InputFile) (db : list GeoRecord) (g : GeoStats) :
  run dir = Ok (db, g) ->
  sumZ (levelCounter g <$> allLevels) = totalRecords g.
Proof.
  intros H. unfold run in H.
  pose proof (forEachM_fileBody (excelFiles dir) ([], emptyStats)) as Hf.
  rewrite H in Hf. destruct Hf as [_ Hc]. destruct (Hc counted_empty) as [Ht Hl].
  cbn [fst snd] in Ht, Hl. rewrite Ht, <- levelCount_total.
  f_equal. apply list_fmap_ext. intros _ l _. unfold levelCounter. rewrite Hl.
  destruct (levelCount (geoLevel_string l) db =? 0) eqn:E; [|reflexivity].
  apply Z.eqb_eq in E. now rewrite E.
Qed.

Lemma level_counters_add_up_witness :
  exists db g, run twoFiles = Ok (db, g) /\
    sumZ (levelCounter g <$> allLevels) = 2.
Proof.
  destruct (run twoFiles) as [[db g]|] eqn:E; [|vm_compute in E; discriminate].
  exists db, g. split; [reflexivity|].
  rewrite (level_counters_add_up twoFiles db g E).
  vm_compute in E. injection E as <- <-. reflexivity.
Defined.

End StatisticsFacts.

(* ===================================================================== *)
(** ** The data explorer: risk level *)
(* ===================================================================== *)

Section RiskFacts.

Import Explorer Samples.

Lemma exceeds_mono v m n : m <= n -> exceeds v n = true -> exceeds v m = true.
Proof.
  unfold exceeds. intros Hmn. destruct (rateNumber v) as [|s|q]; cbn; auto.
  rewrite !negb_true_iff, !Qle_bool_false. intros H.
  apply Qle_lt_trans with (inject_Z n); [|exact H]. now rewrite <- Zle_Qle.
Qed.

(** [n / 10 > k] for integers. *)
Lemma exceeds_tenths n k :
  exceeds (RateStr (FxDec false n)) k = true <-> 10 * k < n.
Proof.
  unfold exceeds. cbn. rewrite negb_true_iff, Qle_bool_false.
  unfold Qlt. cbn. lia.
Qed.

(** X23: the urgent recommendations are shown exactly for the risk levels
    CRITICAL and HIGH. *)
Theorem urgent_iff_critical_or_high (r : GeoRecord) :
  urgent r = true <-> riskLevel r = CRITICAL \/ riskLevel r = HIGH.
Proof.
  unfold urgent, riskLevel.
  destruct (exceeds (combinedRate r) 50) eqn:E50.
  - split; [auto|]. intros _. apply (exceeds_mono _ 40 50); [lia | exact E50].
  - destruct (exceeds (combinedRate r) 40) eqn:E40.
    + split; auto.
    + split; [discriminate|]. destruct (exceeds (combinedRate r) 30); intros [H|H]; discriminate.
Qed.

(** X24: the risk level of a record with the rates of the pipeline, in
    terms of its counts: CRITICAL when more than 50.05% of the households
    are below the threshold and only if at least 50.05% are; LOW when at
    most 30% are.  The rate compared is the printed one, rounded to a
    tenth. *)
Theorem risk_level_from_counts (r : GeoRecord) (t p a : Z) :
  0 < t < 2 ^ 53 -> 0 <= p -> 0 <= a -> p + a <= 10 ^ 12 ->
  combinedRate r = r_combined (calcRates t p a) ->
  (1001 * t < 2000 * (p + a) -> riskLevel r = CRITICAL) /\
  (riskLevel r = CRITICAL -> 1001 * t <= 2000 * (p + a)) /\
  (10 * (p + a) <= 3 * t -> riskLevel r = LOW).
Proof.
  intros Ht Hp Ha Hpa Hr.
  rewrite calcRates_positive in Hr by lia. cbn [r_combined] in Hr.
  destruct (percent_nearest (p + a) t) as (n & Hn & Hnear); [lia | exact Ht |].
  rewrite Hn in Hr. unfold riskLevel. rewrite Hr.
  repeat split.
  - intros H. assert (E : exceeds (RateStr (FxDec false n)) 50 = true) by (apply exceeds_tenths; nia).
    now rewrite E.
  - destruct (exceeds (RateStr (FxDec false n)) 50) eqn:E.
    + intros _. apply exceeds_tenths in E. nia.
    + destruct (exceeds _ 40); [discriminate|]. destruct (exceeds _ 30); discriminate.
  - intros H.
    assert (E30 : exceeds (RateStr (FxDec false n)) 30 = false).
    { destruct (exceeds (RateStr (FxDec false n)) 30) eqn:E; [|reflexivity].
      apply exceeds_tenths in E. nia. }
    assert (E40 : exceeds (RateStr (FxDec false n)) 40 = false).
    { destruct (exceeds (RateStr (FxDec false n)) 40) eqn:E; [|reflexivity].
      apply (exceeds_mono _ 30 40) in E; [congruence | lia]. }
    assert (E50 : exceeds (RateStr (FxDec false n)) 50 = false).
    { destruct (exceeds (RateStr (FxDec false n)) 50) eqn:E; [|reflexivity].
      apply (exceeds_mono _ 30 50) in E; [congruence | lia]. }
    now rewrite E50, E40, E30.
Qed.

Lemma risk_level_from_counts_witness :
  riskLevel (countyOf "Alabama" "B" 100 20 31) = CRITICAL /\
  riskLevel (countyOf "Alabama" "A" 100 4 6) = LOW.
Proof.
  split.
  - destruct (risk_level_from_counts (countyOf "Alabama" "B" 100 20 31) 100 20 31)
      as (H & _ & _); [lia | lia | lia | lia | reflexivity |].
    apply H. lia.
  - destruct (risk_level_from_counts (countyOf "Alabama" "A" 100 4 6) 100 4 6)
      as (_ & _ & H); [lia | lia | lia | lia | reflexivity |].
    apply H. lia.
Defined.

(** X25: the critical alert reports the number of records whose combined
    rate exceeds 50, the records of risk level CRITICAL, but never more
    than 5; there is an alert exactly when there is such a record. *)
Theorem critical_alert_counts_at_most_five (data : list GeoRecord) :
  let critical := filter (fun d => riskLevel d = CRITICAL) data in
  length (highRiskAreas data) = Nat.min 5 (length critical) /\
  Forall (fun d => riskLevel d = CRITICAL) (highRiskAreas data) /\
  criticalAlert data = (if decide (critical = []) then None
                        else Some (Nat.min 5 (length critical))).
Proof.
  cbv zeta.
  assert (Hcrit : forall d, riskLevel d = CRITICAL <-> Is_true (exceeds (combinedRate d) 50)).
  { intros d. unfold riskLevel. destruct (exceeds (combinedRate d) 50).
    - split; [intros _; exact I | reflexivity].
    - split; [|intros []]. intros H.
      destruct (exceeds (combinedRate d) 40); [discriminate H|].
      destruct (exceeds (combinedRate d) 30); discriminate H. }
  assert (Hf : filter (fun d => riskLevel d = CRITICAL) data =
               filter (fun d => Is_true (exceeds (combinedRate d) 50)) data).
  { apply list_filter_iff. exact Hcrit. }
  rewrite Hf. unfold criticalAlert, highRiskAreas.
  set (sel := filter _ data).
  assert (Hlen : length (take 5 (sortBy placedAfter sel)) = Nat.min 5 (length sel)).
  { rewrite length_take. now rewrite (Permutation_length (sortBy_perm placedAfter sel)). }
  split; [exact Hlen|]. split.
  - apply Forall_take. apply Forall_forall. intros d Hd.
    rewrite (sortBy_perm placedAfter sel) in Hd. apply Hcrit.
    subst sel. apply list_elem_of_filter in Hd. tauto.
  - rewrite Hlen. destruct sel as [|d sel'].
    + reflexivity.
    + rewrite decide_False by discriminate. cbn [length].
      destruct (Nat.min 5 (S (length sel'))) eqn:E; [lia | reflexivity].
Qed.

End RiskFacts.

(* ===================================================================== *)
(** ** The data explorer: CSV export *)
(* ===================================================================== *)

Section ExportFacts.

Import Explorer Samples.

Lemma countChar_app c a b :
  countChar c (a ++ b)%string = (countChar c a + countChar c b)%nat.
Proof.
  induction a as [|x a IH]; [reflexivity|].
  change (countChar c (String x a ++ b)%string)
    with ((if Ascii.eqb x c then 1 else 0) + countChar c (a ++ b)%string)%nat.
  rewrite IH. cbn [countChar]. lia.
Qed.

(** Joining strings that do not hold [c] with a separator that does not
    hold it either. *)
Lemma countChar_concat_0 c sep l :
  countChar c sep = 0%nat -> Forall (fun s => countChar c s = 0%nat) l ->
  countChar c (String.concat sep l) = 0%nat.
Proof.
  intros Hsep. induction 1 as [|s l Hs Hl IH]; [reflexivity|].
  destruct l as [|s' l']; [exact Hs|].
  change (String.concat sep (s :: s' :: l'))
    with (s ++ sep ++ String.concat sep (s' :: l'))%string.
  rewrite !countChar_app, Hs, Hsep, IH. reflexivity.
Qed.

(** Joining with the separator [c] itself. *)
Lemma countChar_concat_sep c l :
  Forall (fun s => countChar c s = 0%nat) l ->
  countChar c (String.concat (String c "") l) = (length l - 1)%nat.
Proof.
  induction 1 as [|s l Hs Hl IH]; [reflexivity|].
  destruct l as [|s' l']; [cbn; rewrite Hs; reflexivity|].
  change (String.concat (String c "") (s :: s' :: l'))
    with (s ++ String c "" ++ String.concat (String c "") (s' :: l'))%string.
  rewrite !countChar_app, Hs, IH. cbn [countChar length].
  rewrite Ascii.eqb_refl. lia.
Qed.

Lemma quoteChar_no_LF c : countChar LF (quoteChar c) = 0%nat.
Proof. destruct c as [[] [] [] [] [] [] [] []]; vm_compute; reflexivity. Qed.

Lemma quoteJSON_no_LF s : countChar LF (quoteJSON s) = 0%nat.
Proof.
  unfold quoteJSON. cbn [countChar]. change (Ascii.eqb quote LF) with false.
  rewrite countChar_app. cbn.
  induction s as [|c s IH]; [reflexivity|].
  cbn [quoteChars]. rewrite countChar_app, quoteChar_no_LF. exact IH.
Qed.

Lemma string_of_uint_no_LF d : countChar LF (NilEmpty.string_of_uint d) = 0%nat.
Proof. induction d; cbn; auto. Qed.

Lemma to_string_no_LF v :
  match v with JStr _ => True | _ => countChar LF (to_string v) = 0%nat end.
Proof.
  destruct v as [| |[]|z|s]; try reflexivity; try exact I.
  unfold to_string, string_of_Z.
  destruct (Z.to_int z) as [d|d]; cbn [NilZero.string_of_int].
  - destruct d; try reflexivity; apply string_of_uint_no_LF.
  - cbn [countChar]. destruct d; try reflexivity; apply string_of_uint_no_LF.
Qed.

Lemma fieldOf_no_LF row h : countChar LF (fieldOf row h) = 0%nat.
Proof.
  unfold fieldOf. destruct (lookedUp row h) as [v| |]; [|reflexivity..].
  destruct v as [| |b|z|s]; cbn [stringify default]; try reflexivity.
  - destruct b; reflexivity.
  - apply (to_string_no_LF (JNum z)).
  - apply quoteJSON_no_LF.
Qed.

Lemma line_no_LF headers row : countChar LF (line headers row) = 0%nat.
Proof.
  unfold line. apply countChar_concat_0; [reflexivity|].
  apply Forall_fmap, Forall_true. intros h. apply fieldOf_no_LF.
Qed.

(** X26: every exported record is on one line, whatever its strings hold:
    when no column name has a line feed, the text has as many line feeds
    as records, one after the header and one between two records. *)
Theorem export_has_one_line_per_record (first : JSObject) (rest : list JSObject) :
  Forall (fun k => countChar LF k = 0%nat) (keys first) ->
  exists csv, convertToCSV (first :: rest) = Ok csv /\
    countChar LF csv = S (length rest).
Proof.
  intros Hk. eexists. split; [reflexivity|].
  rewrite countChar_concat_sep.
  - cbn [length]. rewrite length_fmap. cbn [length]. lia.
  - constructor.
    + apply countChar_concat_0; [reflexivity | exact Hk].
    + apply Forall_fmap, Forall_true. intros row. apply line_no_LF.
Qed.

Lemma export_has_one_line_per_record_witness :
  exists csv, convertToCSV [MoreSamples.twoLineLabel; MoreSamples.zeroCount] = Ok csv /\
    countChar LF csv = 2%nat.
Proof.
  apply (export_has_one_line_per_record MoreSamples.twoLineLabel [MoreSamples.zeroCount]).
  repeat constructor.
Defined.

(** X27: the export throws, and nothing is downloaded, exactly when no
    record passes the filter: there is no header-only file. *)
Theorem export_of_empty_selection_throws (keep : JSObject -> bool) (data : list JSObject) :
  (exists e, exportData keep data = Throw e) <-> Forall (fun d => keep d = false) data.
Proof.
  unfold exportData. induction data as [|d data IH].
  - cbn. split; [constructor | eauto].
  - destruct (keep d) eqn:E.
    + rewrite filter_cons_True by (rewrite E; exact I). cbn. split.
      * intros [e He]. discriminate.
      * intros H. inversion H; congruence.
    + rewrite filter_cons_False by (rewrite E; exact id). rewrite IH. split.
      * intros H. constructor; assumption.
      * intros H. now inversion H.
Qed.

End ExportFacts.
